(** * VibeMerge: a shallow embedding of [main.go]

    VibeMerge subscribes to a Redis pub/sub channel carrying Slack
    "reaction added" events, keeps the reactions that name the configured
    emoji, looks the reacted message up through the Slack API, and when the
    message carries pull-request metadata it appends a command payload to a
    Redis list (the Poppit queue) and publishes a TTL request for the
    message (TimeBomb).

    The development follows the layout of [main.go]:
    - Go values: [int] is [Z], [string] is a byte string, an [error] is the
      text of its [Error()] method, a struct is a record;
    - [fmt.Sprintf], [strconv.Atoi] and the [encoding/json] encoder for the
      two outbound structs are written out;
    - the process environment is a finite map from names to values;
    - Redis and Slack are outside the program: every request is appended to
      a trace, and the reply comes from an oracle indexed by the number of
      requests made so far;
    - the functions that log or talk to Redis/Slack run in a state monad
      over [World]. *)

From Stdlib Require Import ZArith String Ascii List DecimalString DecimalPos Sorted Lia.
From stdpp Require Import base gmap strings list.
Import ListNotations.

Local Open Scope string_scope.

(** ** Go strings, errors and formatting *)

(** An [error] is represented by the text [err.Error()] returns; [nil] is
    [None] in an [option error]. *)
Definition error := string.

(** [fmt.Errorf("<prefix>: %w", err)]: the text of the wrapped error is the
    prefix followed by the text of [err]. *)
Definition Errorf (prefix : string) (err : error) : error :=
  prefix ++ ": " ++ err.

(** [%d] on a Go [int]. *)
Definition itoa (n : Z) : string := NilZero.string_of_int (Z.to_int n).

Definition byte_of (c : ascii) : Z := Z.of_N (N_of_ascii c).
Definition ascii_of (b : Z) : ascii := ascii_of_N (Z.to_N b).

(** ** [strconv.Atoi]

    An optional sign, then at least one decimal digit and nothing else; the
    value has to fit in a 64-bit [int].  The caller only tests the error
    against [nil], so a failure is [None]. *)
Definition digit_of (c : ascii) : option Z :=
  let b := byte_of c in
  if ((48 <=? b) && (b <=? 57))%Z then Some (b - 48)%Z else None.

Fixpoint parse_digits (acc : Z) (s : string) : option Z :=
  match s with
  | EmptyString => Some acc
  | String c t =>
      match digit_of c with
      | Some d => parse_digits (10 * acc + d)%Z t
      | None => None
      end
  end.

Definition parse_unsigned (s : string) : option Z :=
  match s with
  | EmptyString => None
  | _ => parse_digits 0%Z s
  end.

Definition int_min : Z := (- 2 ^ 63)%Z.
Definition int_max : Z := (2 ^ 63 - 1)%Z.

Definition Atoi (s : string) : option Z :=
  let signed (neg : bool) (digits : string) :=
    match parse_unsigned digits with
    | None => None
    | Some u =>
        let n := if neg then (- u)%Z else u in
        if ((int_min <=? n) && (n <=? int_max))%Z then Some n else None
    end in
  match s with
  | String "-" t => signed true t
  | String "+" t => signed false t
  | _ => signed false s
  end.

(** ** [encoding/json]: the encoder, for strings, ints and string slices *)

Definition hex_digit (n : Z) : ascii :=
  if (n <? 10)%Z then ascii_of (48 + n) else ascii_of (87 + n).

(** [utf8.DecodeRuneInString]: the rune at the head of [s] and its width;
    a byte that does not start a well-formed sequence gives
    [(RuneError, 1)]. *)
Definition RuneError : Z := 65533.

Definition is_cont (b : Z) : bool := ((128 <=? b) && (b <=? 191))%Z.

Definition DecodeRuneInString (s : string) : Z * nat :=
  match s with
  | EmptyString => (RuneError, 0)
  | String c0 t =>
      let s0 := byte_of c0 in
      if (s0 <? 128)%Z then (s0, 1)
      else if ((s0 <? 194) || (244 <? s0))%Z then (RuneError, 1)
      else
        let sz : nat :=
          if (s0 <? 224)%Z then 2 else if (s0 <? 240)%Z then 3 else 4 in
        let lo := if (s0 =? 224)%Z then 160%Z
                  else if (s0 =? 240)%Z then 144%Z else 128%Z in
        let hi := if (s0 =? 237)%Z then 159%Z
                  else if (s0 =? 244)%Z then 143%Z else 191%Z in
        match t with
        | EmptyString => (RuneError, 1)
        | String c1 t1 =>
            let s1 := byte_of c1 in
            if ((s1 <? lo) || (hi <? s1))%Z then (RuneError, 1)
            else if (sz <=? 2)%nat then
              (Z.lor (Z.shiftl (Z.land s0 31) 6) (Z.land s1 63), 2)
            else
              match t1 with
              | EmptyString => (RuneError, 1)
              | String c2 t2 =>
                  let s2 := byte_of c2 in
                  if negb (is_cont s2) then (RuneError, 1)
                  else if (sz <=? 3)%nat then
                    (Z.lor (Z.shiftl (Z.land s0 15) 12)
                       (Z.lor (Z.shiftl (Z.land s1 63) 6) (Z.land s2 63)), 3)
                  else
                    match t2 with
                    | EmptyString => (RuneError, 1)
                    | String c3 _ =>
                        let s3 := byte_of c3 in
                        if negb (is_cont s3) then (RuneError, 1)
                        else
                          (Z.lor (Z.shiftl (Z.land s0 7) 18)
                             (Z.lor (Z.shiftl (Z.land s1 63) 12)
                                (Z.lor (Z.shiftl (Z.land s2 63) 6)
                                   (Z.land s3 63))), 4)
                    end
              end
        end
  end.

(** The body of a JSON string literal, HTML escaping on (the default of
    [json.Marshal]).  [pending] counts the bytes of the current multi-byte
    rune that are still to be consumed, [copy] tells whether they are
    copied (an ordinary rune) or dropped (U+2028 and U+2029, already
    written as an escape). *)
Fixpoint appendStringBody (pending : nat) (copy : bool) (s : string) : string :=
  match s with
  | EmptyString => EmptyString
  | String c t =>
      match pending with
      | S k =>
          if copy then String c (appendStringBody k copy t)
          else appendStringBody k copy t
      | O =>
          let b := byte_of c in
          if (b <? 128)%Z then
            if ((b =? 92) || (b =? 34))%Z then
              String "\" (String c (appendStringBody 0 true t))
            else if (b =? 8)%Z then "\b" ++ appendStringBody 0 true t
            else if (b =? 12)%Z then "\f" ++ appendStringBody 0 true t
            else if (b =? 10)%Z then "\n" ++ appendStringBody 0 true t
            else if (b =? 13)%Z then "\r" ++ appendStringBody 0 true t
            else if (b =? 9)%Z then "\t" ++ appendStringBody 0 true t
            else if ((b <? 32) || (b =? 60) || (b =? 62) || (b =? 38))%Z then
              "\u00" ++ String (hex_digit (Z.shiftr b 4))
                          (String (hex_digit (Z.land b 15))
                             (appendStringBody 0 true t))
            else String c (appendStringBody 0 true t)
          else
            match DecodeRuneInString s with
            | (r, size) =>
                if ((r =? RuneError)%Z && (size =? 1)%nat) then
                  "\ufffd" ++ appendStringBody 0 true t
                else if ((r =? 8232) || (r =? 8233))%Z then
                  "\u202" ++ String (hex_digit (Z.land r 15))
                              (appendStringBody (size - 1) false t)
                else String c (appendStringBody (size - 1) true t)
            end
      end
  end.

Definition quote : string := String (ascii_of 34) EmptyString.

(** JSON text written with ['] where the text has a double quote. *)
Fixpoint dq (s : string) : string :=
  match s with
  | EmptyString => EmptyString
  | String c t => String (if (byte_of c =? 39)%Z then ascii_of 34 else c) (dq t)
  end.

Definition appendString (s : string) : string :=
  quote ++ appendStringBody 0 true s ++ quote.

Fixpoint join (sep : string) (l : list string) : string :=
  match l with
  | [] => ""
  | [x] => x
  | x :: rest => x ++ sep ++ join sep rest
  end.

(** A non-nil [[]string]. *)
Definition encodeStringSlice (l : list string) : string :=
  "[" ++ join "," (map appendString l) ++ "]".

(** One [key:value] member of an object, the key taken from the struct tag. *)
Definition member (key value : string) : string :=
  quote ++ key ++ quote ++ ":" ++ value.

Definition encodeObject (members : list string) : string :=
  "{" ++ join "," members ++ "}".

(** ** The structs of [main.go] *)

(** [Config]: the application configuration. *)
Record Config := mkConfig {
  SlackBotToken : string;
  RedisAddr : string;
  RedisPassword : string;
  RedisDB : Z;
  WorkDir : string;
  TargetEmoji : string;
  TargetBranch : string;
  PoppitQueue : string;
  TimeBombChannel : string;
  TimeBombTTL : Z;
  ConfigLogLevel : string          (* Go: [Config.LogLevel] *)
}.

(** [ReactionEvent.Event.Item]. *)
Record ReactionItem := mkReactionItem {
  ItemType : string;               (* json "type" *)
  ItemChannel : string;            (* json "channel" *)
  ItemTs : string                  (* json "ts" *)
}.

(** [ReactionEvent.Event]. *)
Record ReactionBody := mkReactionBody {
  BodyType : string;               (* json "type" *)
  User : string;
  Reaction : string;
  Item : ReactionItem;
  ItemUser : string;
  EventTs : string
}.

(** [ReactionEvent]: the message received on the
    slack-relay-reaction-added channel.  The fields of dynamic type
    ([context_enterprise_id], [authorizations]) are never read and are left
    out. *)
Record ReactionEvent := mkReactionEvent {
  Token : string;
  TeamID : string;
  ContextTeamID : string;
  APIAppID : string;
  Event : ReactionBody;
  EnvelopeType : string;           (* json "type" *)
  EventID : string;
  EventTime : Z;
  IsExtSharedChannel : bool;
  EventContext : string
}.

(** [PRMetadata]: the metadata embedded in Slack messages. *)
Record PRMetadata := mkPRMetadata {
  PRNumber : Z;                    (* json "pr_number" *)
  Repository : string;             (* json "repository" *)
  PRURL : string;                  (* json "pr_url" *)
  Author : string;                 (* json "author" *)
  MetaBranch : string;             (* Go: [PRMetadata.Branch], json "branch" *)
  EventAction : string             (* json "event_action" *)
}.

(** [PoppitPayload]: the command payload sent to Poppit. *)
Record PoppitPayload := mkPoppitPayload {
  Repo : string;                   (* json "repo" *)
  Branch : string;                 (* json "branch" *)
  Type_ : string;                  (* Go: [Type], json "type" *)
  Dir : string;                    (* json "dir" *)
  Commands : list string           (* json "commands" *)
}.

(** [TimeBombMessage]: the TTL message sent to TimeBomb. *)
Record TimeBombMessage := mkTimeBombMessage {
  Channel : string;                (* json "channel" *)
  Ts : string;                     (* json "ts" *)
  TTL : Z                          (* json "ttl" *)
}.

(** The JSON text of the two outbound structs: members in declaration
    order under their tags. *)
Definition encodePoppitPayload (p : PoppitPayload) : string :=
  encodeObject
    [ member "repo" (appendString (Repo p));
      member "branch" (appendString (Branch p));
      member "type" (appendString (Type_ p));
      member "dir" (appendString (Dir p));
      member "commands" (encodeStringSlice (Commands p)) ].

Definition encodeTimeBombMessage (m : TimeBombMessage) : string :=
  encodeObject
    [ member "channel" (appendString (Channel m));
      member "ts" (appendString (Ts m));
      member "ttl" (itoa (TTL m)) ].

(** [json.Marshal] on these structs.  No value of these types makes the
    encoder fail; the result keeps Go's [([]byte, error)] shape because the
    callers test the error. *)
Definition json_Marshal_PoppitPayload (p : PoppitPayload) : error + string :=
  inr (encodePoppitPayload p).

Definition json_Marshal_TimeBombMessage (m : TimeBombMessage) : error + string :=
  inr (encodeTimeBombMessage m).

(** ** Log levels *)

Inductive LogLevel := LogLevelDebug | LogLevelInfo | LogLevelWarning | LogLevelError.

(** The [iota] value of a level. *)
Definition LogLevel_int (l : LogLevel) : Z :=
  match l with
  | LogLevelDebug => 0
  | LogLevelInfo => 1
  | LogLevelWarning => 2
  | LogLevelError => 3
  end.

Definition parseLogLevel (level : string) : LogLevel :=
  if String.eqb level "DEBUG" then LogLevelDebug
  else if String.eqb level "INFO" then LogLevelInfo
  else if String.eqb level "WARNING" || String.eqb level "WARN" then LogLevelWarning
  else if String.eqb level "ERROR" then LogLevelError
  else LogLevelInfo.

(** ** The outside world *)

(** [slack.GetConversationHistoryParameters], the fields the program sets. *)
Record HistoryParams := mkHistoryParams {
  ChannelID : string;
  Latest : string;
  Limit : Z;
  Inclusive : bool;
  IncludeAllMetadata : bool
}.

(** A request made to Redis or Slack; Redis commands carry the error they
    came back with ([None] is success). *)
Inductive Request :=
| RedisNewClient (addr password : string) (db : Z)
| RedisPing (err : option error)
| SlackNew (token : string)
| RedisSubscribe (channel : string)
| RedisReceiveMessage (res : error + string)
| RedisPubSubClose
| RedisClose
| SlackGetConversationHistory (params : HistoryParams)
| RedisRPush (key value : string) (err : option error)
| RedisPublish (channel message : string) (err : option error).

(** The state the program runs in: the global [currentLogLevel], the
    requests made so far (oldest first) and the lines written by the [log]
    package (oldest first, without the time stamp [log] puts in front). *)
Record World := mkWorld {
  currentLogLevel : LogLevel;
  trace : list Request;
  logged : list string
}.

Definition M (A : Type) : Type := World -> A * World.

Definition ret {A} (a : A) : M A := fun w => (a, w).

Definition bind {A B} (m : M A) (k : A -> M B) : M B :=
  fun w => let (a, w') := m w in k a w'.

Notation "'do' x <- m ; k" := (bind m (fun x => k))
  (at level 10, x name, m at level 100, k at level 200).
Notation "m ;; k" := (bind m (fun _ => k))
  (at level 100, k at level 200, right associativity).

(** The number of requests made so far: the index the oracles answer at. *)
Definition now (w : World) : nat := length (trace w).

Definition request (r : Request) : M unit :=
  fun w => (tt, mkWorld (currentLogLevel w) (trace w ++ [r]) (logged w)).

Definition log_Printf (line : string) : M unit :=
  fun w => (tt, mkWorld (currentLogLevel w) (trace w) (logged w ++ [line])).

Definition setLogLevel (l : LogLevel) : M unit :=
  fun w => (tt, mkWorld l (trace w) (logged w)).

(** [currentLogLevel <= l] on the [iota] values. *)
Definition enabled (l : LogLevel) (w : World) : bool :=
  (LogLevel_int (currentLogLevel w) <=? LogLevel_int l)%Z.

Definition logDebug (msg : string) : M unit :=
  fun w => if enabled LogLevelDebug w then log_Printf ("[DEBUG] " ++ msg) w else (tt, w).

Definition logInfo (msg : string) : M unit :=
  fun w => if enabled LogLevelInfo w then log_Printf ("[INFO] " ++ msg) w else (tt, w).

Definition logWarning (msg : string) : M unit :=
  fun w => if enabled LogLevelWarning w then log_Printf ("[WARNING] " ++ msg) w else (tt, w).

Definition logError (msg : string) : M unit :=
  fun w => if enabled LogLevelError w then log_Printf ("[ERROR] " ++ msg) w else (tt, w).

(** ** Configuration *)

(** The process environment. *)
Abbreviation Environ := (gmap string string).

(** [os.Getenv]: the value of the variable, empty when it is not set. *)
Definition Getenv (env : Environ) (key : string) : string :=
  default "" (env !! key).

Definition getEnv (env : Environ) (key defaultValue : string) : string :=
  let value := Getenv env key in
  if negb (String.eqb value "") then value else defaultValue.

Definition getEnvInt (env : Environ) (key : string) (defaultValue : Z) : M Z :=
  let value := Getenv env key in
  if negb (String.eqb value "") then
    match Atoi value with
    | Some intValue => ret intValue
    | None =>
        log_Printf ("[WARNING] invalid integer value for " ++ key ++ ": " ++ value
                    ++ ", using default: " ++ itoa defaultValue) ;;
        ret defaultValue
    end
  else ret defaultValue.

(** How a function that may call [log.Fatal] ends: the process exits with
    a status, or the function returns. *)
Inductive Run (A : Type) :=
| Exited (status : Z)
| Returned (a : A).
Arguments Exited {A} status.
Arguments Returned {A} a.

(** [log.Fatal]: print, then [os.Exit(1)]. *)
Definition log_Fatal {A} (line : string) : M (Run A) :=
  log_Printf line ;; ret (Exited 1).

Definition loadConfig (env : Environ) : M (Run Config) :=
  do ttl <- getEnvInt env "TIMEBOMB_TTL" 86400;
  let config :=
    {| SlackBotToken := getEnv env "SLACK_BOT_TOKEN" "";
       RedisAddr := getEnv env "REDIS_ADDR" "localhost:6379";
       RedisPassword := getEnv env "REDIS_PASSWORD" "";
       RedisDB := 0;
       WorkDir := getEnv env "WORK_DIR" "/tmp/vibemerge";
       TargetEmoji := getEnv env "TARGET_EMOJI" "heart_eyes_cat";
       TargetBranch := getEnv env "TARGET_BRANCH" "refs/heads/main";
       PoppitQueue := getEnv env "POPPIT_QUEUE" "poppit-commands";
       TimeBombChannel := getEnv env "TIMEBOMB_CHANNEL" "timebomb-messages";
       TimeBombTTL := ttl;
       ConfigLogLevel := getEnv env "LOG_LEVEL" "INFO" |} in
  if String.eqb (SlackBotToken config) "" then
    log_Fatal "SLACK_BOT_TOKEN environment variable is required"
  else ret (Returned config).

(** ** Redis, Slack and the JSON decoder

    The replies of the services and the results of [json.Unmarshal] are
    not decided by [main.go].  A reply may depend on the moment of the
    call, given as the number of requests made before it. *)

(** [slack.Message], the two fields read: [Metadata.EventType] and
    [Metadata.EventPayload], the latter of a type [P] standing for
    [map[string]interface{}]. *)
Record Message (P : Type) := mkMessage {
  EventType : string;
  EventPayload : P
}.
Arguments mkMessage {P} _ _.
Arguments EventType {P} _.
Arguments EventPayload {P} _.

Record Outside (P : Type) := mkOutside {
  (* json.Unmarshal([]byte(payload), &reactionEvent) *)
  json_Unmarshal_ReactionEvent : string -> error + ReactionEvent;
  (* json.Marshal(message.Metadata.EventPayload) *)
  json_Marshal_EventPayload : P -> error + string;
  (* json.Unmarshal(metadataJSON, &metadata) *)
  json_Unmarshal_PRMetadata : string -> error + PRMetadata;
  (* slackClient.GetConversationHistory(params): history.Messages or err *)
  slack_GetConversationHistory : nat -> HistoryParams -> error + list (Message P);
  (* redisClient.Ping(ctx).Err() *)
  redis_Ping : nat -> option error;
  (* redisClient.RPush(ctx, key, value).Err() *)
  redis_RPush : nat -> string -> string -> option error;
  (* redisClient.Publish(ctx, channel, message).Err() *)
  redis_Publish : nat -> string -> string -> option error
}.
Arguments json_Unmarshal_ReactionEvent {P} _ _.
Arguments json_Marshal_EventPayload {P} _ _.
Arguments json_Unmarshal_PRMetadata {P} _ _.
Arguments slack_GetConversationHistory {P} _ _ _.
Arguments redis_Ping {P} _ _.
Arguments redis_RPush {P} _ _ _ _.
Arguments redis_Publish {P} _ _ _ _.

(** What the subscription delivers to one turn of the receive loop: the
    context is found cancelled, or [pubsub.ReceiveMessage] returns. *)
Inductive Delivery :=
| CtxDone
| Received (res : error + string).

Section Program.

Context {P : Type} (out : Outside P).

Definition GetConversationHistory (params : HistoryParams)
  : M (error + list (Message P)) :=
  fun w => (slack_GetConversationHistory out (now w) params,
            snd (request (SlackGetConversationHistory params) w)).

Definition Ping : M (option error) :=
  fun w => let err := redis_Ping out (now w) in
           (err, snd (request (RedisPing err) w)).

Definition RPush (key value : string) : M (option error) :=
  fun w => let err := redis_RPush out (now w) key value in
           (err, snd (request (RedisRPush key value err) w)).

Definition Publish (channel message : string) : M (option error) :=
  fun w => let err := redis_Publish out (now w) channel message in
           (err, snd (request (RedisPublish channel message err) w)).

Definition historyParams (channel timestamp : string) : HistoryParams :=
  {| ChannelID := channel; Latest := timestamp; Limit := 1;
     Inclusive := true; IncludeAllMetadata := true |}.

(** [getMessageMetadata] from the reply of [GetConversationHistory] on:
    nothing after the call touches the world.  The result is [(nil, err)]
    as [inl err], [(nil, nil)] as [inr None] and [(&metadata, nil)] as
    [inr (Some metadata)]. *)
Definition metadataFromHistory (timestamp : string)
    (history : error + list (Message P)) : error + option PRMetadata :=
  match history with
  | inl err => inl (Errorf "failed to get conversation history" err)
  | inr [] => inl ("no message found at timestamp " ++ timestamp)
  | inr (message :: _) =>
      if String.eqb (EventType message) "" then inr None
      else
        match json_Marshal_EventPayload out (EventPayload message) with
        | inl err => inl (Errorf "failed to marshal metadata" err)
        | inr metadataJSON =>
            match json_Unmarshal_PRMetadata out metadataJSON with
            | inl err => inl (Errorf "failed to unmarshal PR metadata" err)
            | inr metadata =>
                if (PRNumber metadata =? 0)%Z || String.eqb (Repository metadata) ""
                then inr None
                else inr (Some metadata)
            end
        end
  end.

Definition getMessageMetadata (channel timestamp : string)
  : M (error + option PRMetadata) :=
  do history <- GetConversationHistory (historyParams channel timestamp);
  ret (metadataFromHistory timestamp history).

Definition publishTimeBombMessage (config : Config) (channel timestamp : string)
  : M (option error) :=
  let timeBombMsg :=
    {| Channel := channel; Ts := timestamp; TTL := TimeBombTTL config |} in
  match json_Marshal_TimeBombMessage timeBombMsg with
  | inl err => ret (Some (Errorf "failed to marshal timebomb message" err))
  | inr msgJSON =>
      do err <- Publish (TimeBombChannel config) msgJSON;
      match err with
      | Some err =>
          ret (Some (Errorf ("failed to publish to " ++ TimeBombChannel config) err))
      | None =>
          logInfo ("Successfully set TTL of " ++ itoa (TimeBombTTL config)
                   ++ " seconds on message " ++ timestamp
                   ++ " in channel " ++ channel) ;;
          ret None
      end
  end.

Definition handleReactionMessage (payload : string) (config : Config)
  : M (option error) :=
  match json_Unmarshal_ReactionEvent out payload with
  | inl err => ret (Some (Errorf "failed to unmarshal reaction event" err))
  | inr reactionEvent =>
      if negb (String.eqb (Reaction (Event reactionEvent)) (TargetEmoji config)) then
        logDebug ("Ignoring reaction: " ++ Reaction (Event reactionEvent)) ;;
        ret None
      else
        logInfo ("Processing " ++ TargetEmoji config ++ " reaction on message "
                 ++ ItemTs (Item (Event reactionEvent)) ++ " in channel "
                 ++ ItemChannel (Item (Event reactionEvent))) ;;
        do res <- getMessageMetadata (ItemChannel (Item (Event reactionEvent)))
                                     (ItemTs (Item (Event reactionEvent)));
        match res with
        | inl err => ret (Some (Errorf "failed to get message metadata" err))
        | inr None =>
            logDebug "No PR metadata found in message, ignoring" ;;
            ret None
        | inr (Some metadata) =>
            logInfo ("Found PR metadata: repo=" ++ Repository metadata
                     ++ ", pr=" ++ itoa (PRNumber metadata)) ;;
            let poppitPayload :=
              {| Repo := Repository metadata;
                 Branch := TargetBranch config;
                 Type_ := EventAction metadata;
                 Dir := WorkDir config;
                 Commands :=
                   [ "gh pr --repo " ++ Repository metadata ++ " ready "
                     ++ itoa (PRNumber metadata);
                     "gh pr --repo " ++ Repository metadata ++ " merge "
                     ++ itoa (PRNumber metadata) ++ " --squash" ] |} in
            match json_Marshal_PoppitPayload poppitPayload with
            | inl err => ret (Some (Errorf "failed to marshal poppit payload" err))
            | inr payloadJSON =>
                do err <- RPush (PoppitQueue config) payloadJSON;
                match err with
                | Some err =>
                    ret (Some (Errorf ("failed to push to " ++ PoppitQueue config) err))
                | None =>
                    logInfo ("Successfully queued merge command for PR "
                             ++ itoa (PRNumber metadata) ++ " in "
                             ++ Repository metadata) ;;
                    let channel := ItemChannel (Item (Event reactionEvent)) in
                    let timestamp := ItemTs (Item (Event reactionEvent)) in
                    do err <- publishTimeBombMessage config channel timestamp;
                    match err with
                    | Some err => logWarning ("Failed to set TTL on message: " ++ err)
                    | None => ret tt
                    end ;;
                    ret None
                end
            end
        end
  end.

(** The [for] loop of [processReactions] over what the subscription
    delivers.  [true]: the loop returned (the context was cancelled);
    [false]: the deliveries are used up and the loop is waiting in
    [ReceiveMessage]. *)
Fixpoint receiveLoop (config : Config) (bus : list Delivery) : M bool :=
  match bus with
  | [] => ret false
  | CtxDone :: _ => ret true
  | Received res :: rest =>
      request (RedisReceiveMessage res) ;;
      match res with
      | inl err =>
          logError ("Error receiving message: " ++ err) ;;
          receiveLoop config rest
      | inr payload =>
          do err <- handleReactionMessage payload config;
          match err with
          | Some err => logError ("Error handling reaction message: " ++ err)
          | None => ret tt
          end ;;
          receiveLoop config rest
      end
  end.

Definition processReactions (config : Config) (bus : list Delivery) : M bool :=
  request (RedisSubscribe "slack-relay-reaction-added") ;;
  logInfo "Subscribed to slack-relay-reaction-added channel" ;;
  do returned <- receiveLoop config bus;
  (* defer pubsub.Close() *)
  (if returned : bool then request RedisPubSubClose else ret tt) ;;
  ret returned.

(** [main].  The reaction goroutine runs beside [main], which only waits
    for the signal.  The run is laid out on one line of time: the start-up;
    the goroutine, which subscribes and handles the deliveries it gets
    before the signal ([bus]); then the shutdown of [main], which logs,
    cancels the context and runs the deferred [redisClient.Close()] without
    waiting for the goroutine.  If the goroutine still finds the context
    cancelled before the process is gone, its own deferred
    [pubsub.Close()] comes after that.  [log.Fatalf] leaves the process at
    once, without the deferred calls. *)
Definition main (env : Environ) (bus : list Delivery) : M (Run unit) :=
  do loaded <- loadConfig env;
  match loaded with
  | Exited status => ret (Exited status)
  | Returned config =>
      setLogLevel (parseLogLevel (ConfigLogLevel config)) ;;
      request (RedisNewClient (RedisAddr config) (RedisPassword config)
                              (RedisDB config)) ;;
      do err <- Ping;
      match err with
      | Some err => log_Fatal ("Failed to connect to Redis: " ++ err)
      | None =>
          logInfo "Connected to Redis successfully" ;;
          request (SlackNew (SlackBotToken config)) ;;
          (* go processReactions(...): the goroutine up to the signal *)
          request (RedisSubscribe "slack-relay-reaction-added") ;;
          logInfo "Subscribed to slack-relay-reaction-added channel" ;;
          do returned <- receiveLoop config bus;
          (* <-sigChan *)
          logInfo "Shutdown signal received, exiting..." ;;
          (* cancel(), then the deferred redisClient.Close() *)
          request RedisClose ;;
          (* the goroutine's deferred pubsub.Close(), if it gets that far *)
          (if returned : bool then request RedisPubSubClose else ret tt) ;;
          ret (Returned tt)
      end
  end.

End Program.

(** ** A table-driven stand-in for the services

    Used to run the program on concrete inputs: the JSON decoders look the
    text up in a table, Slack answers every history request with the same
    messages, Redis answers from fixed replies. *)

Fixpoint assoc {A} (key : string) (table : list (string * A)) : option A :=
  match table with
  | [] => None
  | (k, a) :: rest => if String.eqb k key then Some a else assoc key rest
  end.

Definition tableOutside
    (events : list (string * ReactionEvent))
    (metadata : list (string * PRMetadata))
    (history : error + list (Message string))
    (pushReply publishReply : option error) : Outside string :=
  {| json_Unmarshal_ReactionEvent := fun text =>
       match assoc text events with
       | Some ev => inr ev
       | None => inl "invalid character 'x' looking for beginning of value"
       end;
     json_Marshal_EventPayload := fun payload => inr payload;
     json_Unmarshal_PRMetadata := fun text =>
       match assoc text metadata with
       | Some md => inr md
       | None => inl "json: cannot unmarshal string into Go struct field"
       end;
     slack_GetConversationHistory := fun _ _ => history;
     redis_Ping := fun _ => None;
     redis_RPush := fun _ _ _ => pushReply;
     redis_Publish := fun _ _ _ => publishReply |}.

Definition reactionOn (reaction channel ts : string) : ReactionEvent :=
  {| Token := ""; TeamID := ""; ContextTeamID := ""; APIAppID := "";
     Event := {| BodyType := "reaction_added"; User := "U123456";
                 Reaction := reaction;
                 Item := {| ItemType := "message"; ItemChannel := channel;
                            ItemTs := ts |};
                 ItemUser := ""; EventTs := "" |};
     EnvelopeType := ""; EventID := ""; EventTime := 0;
     IsExtSharedChannel := false; EventContext := "" |}.

Definition sampleMetadata : PRMetadata :=
  {| PRNumber := 42; Repository := "org/repo";
     PRURL := "https://github.com/org/repo/pull/42";
     Author := "username123"; MetaBranch := "feature/add-metadata";
     EventAction := "review_requested" |}.

Definition sampleEvents : list (string * ReactionEvent) :=
  [ ("cat", reactionOn "heart_eyes_cat" "C123456" "1766236581.981479");
    ("thumbsup", reactionOn "thumbsup" "C123456" "1766236581.981479") ].

Definition sampleHistory : error + list (Message string) :=
  inr [ mkMessage "pr_opened" "meta42" ].

Definition sampleOutside (pushReply publishReply : option error) : Outside string :=
  tableOutside sampleEvents [("meta42", sampleMetadata)] sampleHistory
               pushReply publishReply.

Definition sampleEnviron : Environ :=
  <["SLACK_BOT_TOKEN" := "xoxb-token"]> ∅.

Definition defaultConfig : Config :=
  {| SlackBotToken := "xoxb-token";
     RedisAddr := "localhost:6379";
     RedisPassword := "";
     RedisDB := 0;
     WorkDir := "/tmp/vibemerge";
     TargetEmoji := "heart_eyes_cat";
     TargetBranch := "refs/heads/main";
     PoppitQueue := "poppit-commands";
     TimeBombChannel := "timebomb-messages";
     TimeBombTTL := 86400;
     ConfigLogLevel := "INFO" |}.

Definition initialWorld : World :=
  {| currentLogLevel := LogLevelDebug; trace := []; logged := [] |}.

(** * The vocabulary of the properties *)

(** ** Reading a trace *)

(** The requests made between two worlds. *)
Definition since (w w' : World) : list Request := drop (now w) (trace w').

(** Every [RPUSH] attempted, as (list, entry). *)
Definition pushAttempts (t : list Request) : list (string * string) :=
  omap (fun r => match r with
                 | RedisRPush key value _ => Some (key, value)
                 | _ => None
                 end) t.

(** The entries appended to a list: the [RPUSH]es that came back without
    error. *)
Definition queued (t : list Request) : list (string * string) :=
  omap (fun r => match r with
                 | RedisRPush key value None => Some (key, value)
                 | _ => None
                 end) t.

(** Every [PUBLISH] attempted, as (channel, message). *)
Definition cleanupAttempts (t : list Request) : list (string * string) :=
  omap (fun r => match r with
                 | RedisPublish channel message _ => Some (channel, message)
                 | _ => None
                 end) t.

(** The payloads [ReceiveMessage] returned, one per delivery consumed. *)
Definition received (t : list Request) : list (error + string) :=
  omap (fun r => match r with
                 | RedisReceiveMessage res => Some res
                 | _ => None
                 end) t.

(** The database index of every Redis client created. *)
Definition clientDBs (t : list Request) : list Z :=
  omap (fun r => match r with
                 | RedisNewClient _ _ db => Some db
                 | _ => None
                 end) t.

(** The line a [logX] call writes in [w]: none when the level is filtered. *)
Definition emit (w : World) (l : LogLevel) (line : string) : list string :=
  if enabled l w then [line] else [].

(** A world extended by requests and log lines. *)
Definition extend (w : World) (evs : list Request) (lines : list string) : World :=
  {| currentLogLevel := currentLogLevel w;
     trace := trace w ++ evs;
     logged := logged w ++ lines |}.

(** The lines logged between two worlds. *)
Definition loggedSince (w w' : World) : list string :=
  drop (length (logged w)) (logged w').

Section Vocabulary.

Context {P : Type} (out : Outside P).

(** What the metadata fetcher returns for an event handled in [w]. *)
Definition fetched (ev : ReactionEvent) (w : World) : error + option PRMetadata :=
  metadataFromHistory out (ItemTs (Item (Event ev)))
    (slack_GetConversationHistory out (now w)
       (historyParams (ItemChannel (Item (Event ev))) (ItemTs (Item (Event ev))))).

(** The cleanup request for an event, and its JSON text. *)
Definition cleanupRequest (config : Config) (channel timestamp : string)
  : TimeBombMessage :=
  {| Channel := channel; Ts := timestamp; TTL := TimeBombTTL config |}.

Definition cleanupJSON (config : Config) (channel timestamp : string) : string :=
  encodeTimeBombMessage (cleanupRequest config channel timestamp).

(** The command payload for a piece of metadata, and its JSON text. *)
Definition commandPayload (config : Config) (metadata : PRMetadata) : PoppitPayload :=
  {| Repo := Repository metadata;
     Branch := TargetBranch config;
     Type_ := EventAction metadata;
     Dir := WorkDir config;
     Commands :=
       [ "gh pr --repo " ++ Repository metadata ++ " ready " ++ itoa (PRNumber metadata);
         "gh pr --repo " ++ Repository metadata ++ " merge " ++ itoa (PRNumber metadata)
           ++ " --squash" ] |}.

Definition commandJSON (config : Config) (metadata : PRMetadata) : string :=
  encodePoppitPayload (commandPayload config metadata).

(** The log lines of the pipeline. *)
Definition lineProcessing (config : Config) (ev : ReactionEvent) : string :=
  "[INFO] Processing " ++ TargetEmoji config ++ " reaction on message "
  ++ ItemTs (Item (Event ev)) ++ " in channel " ++ ItemChannel (Item (Event ev)).

Definition lineFound (md : PRMetadata) : string :=
  "[INFO] Found PR metadata: repo=" ++ Repository md ++ ", pr=" ++ itoa (PRNumber md).

Definition lineQueued (md : PRMetadata) : string :=
  "[INFO] Successfully queued merge command for PR " ++ itoa (PRNumber md)
  ++ " in " ++ Repository md.

Definition lineTTL (config : Config) (ev : ReactionEvent) : string :=
  "[INFO] Successfully set TTL of " ++ itoa (TimeBombTTL config)
  ++ " seconds on message " ++ ItemTs (Item (Event ev))
  ++ " in channel " ++ ItemChannel (Item (Event ev)).

Definition lineTTLFailed (config : Config) (err : error) : string :=
  "[WARNING] Failed to set TTL on message: "
  ++ Errorf ("failed to publish to " ++ TimeBombChannel config) err.

(** ** The ways [handleReactionMessage] can go

    [Outcome config payload w result evs lines]: handling [payload] in [w]
    returns [result], makes the requests [evs] and logs [lines]. *)
Inductive Outcome (config : Config) (payload : string) (w : World)
  : option error -> list Request -> list string -> Prop :=
| DecodeFailed err :
    json_Unmarshal_ReactionEvent out payload = inl err ->
    Outcome config payload w
      (Some (Errorf "failed to unmarshal reaction event" err)) [] []
| ReactionIgnored ev :
    json_Unmarshal_ReactionEvent out payload = inr ev ->
    Reaction (Event ev) <> TargetEmoji config ->
    Outcome config payload w None []
      (emit w LogLevelDebug ("[DEBUG] Ignoring reaction: " ++ Reaction (Event ev)))
| FetchFailed ev err :
    json_Unmarshal_ReactionEvent out payload = inr ev ->
    Reaction (Event ev) = TargetEmoji config ->
    fetched ev w = inl err ->
    Outcome config payload w
      (Some (Errorf "failed to get message metadata" err))
      [SlackGetConversationHistory
         (historyParams (ItemChannel (Item (Event ev))) (ItemTs (Item (Event ev))))]
      (emit w LogLevelInfo (lineProcessing config ev))
| NoMetadata ev :
    json_Unmarshal_ReactionEvent out payload = inr ev ->
    Reaction (Event ev) = TargetEmoji config ->
    fetched ev w = inr None ->
    Outcome config payload w None
      [SlackGetConversationHistory
         (historyParams (ItemChannel (Item (Event ev))) (ItemTs (Item (Event ev))))]
      (emit w LogLevelInfo (lineProcessing config ev)
       ++ emit w LogLevelDebug "[DEBUG] No PR metadata found in message, ignoring")
| PushFailed ev md err :
    json_Unmarshal_ReactionEvent out payload = inr ev ->
    Reaction (Event ev) = TargetEmoji config ->
    fetched ev w = inr (Some md) ->
    redis_RPush out (now w + 1) (PoppitQueue config) (commandJSON config md)
    = Some err ->
    Outcome config payload w
      (Some (Errorf ("failed to push to " ++ PoppitQueue config) err))
      [SlackGetConversationHistory
         (historyParams (ItemChannel (Item (Event ev))) (ItemTs (Item (Event ev))));
       RedisRPush (PoppitQueue config) (commandJSON config md) (Some err)]
      (emit w LogLevelInfo (lineProcessing config ev)
       ++ emit w LogLevelInfo (lineFound md))
| CleanupFailed ev md err :
    json_Unmarshal_ReactionEvent out payload = inr ev ->
    Reaction (Event ev) = TargetEmoji config ->
    fetched ev w = inr (Some md) ->
    redis_RPush out (now w + 1) (PoppitQueue config) (commandJSON config md)
    = None ->
    redis_Publish out (now w + 2) (TimeBombChannel config)
      (cleanupJSON config (ItemChannel (Item (Event ev))) (ItemTs (Item (Event ev))))
    = Some err ->
    Outcome config payload w None
      [SlackGetConversationHistory
         (historyParams (ItemChannel (Item (Event ev))) (ItemTs (Item (Event ev))));
       RedisRPush (PoppitQueue config) (commandJSON config md) None;
       RedisPublish (TimeBombChannel config)
         (cleanupJSON config (ItemChannel (Item (Event ev))) (ItemTs (Item (Event ev))))
         (Some err)]
      (emit w LogLevelInfo (lineProcessing config ev)
       ++ emit w LogLevelInfo (lineFound md)
       ++ emit w LogLevelInfo (lineQueued md)
       ++ emit w LogLevelWarning (lineTTLFailed config err))
| Completed ev md :
    json_Unmarshal_ReactionEvent out payload = inr ev ->
    Reaction (Event ev) = TargetEmoji config ->
    fetched ev w = inr (Some md) ->
    redis_RPush out (now w + 1) (PoppitQueue config) (commandJSON config md)
    = None ->
    redis_Publish out (now w + 2) (TimeBombChannel config)
      (cleanupJSON config (ItemChannel (Item (Event ev))) (ItemTs (Item (Event ev))))
    = None ->
    Outcome config payload w None
      [SlackGetConversationHistory
         (historyParams (ItemChannel (Item (Event ev))) (ItemTs (Item (Event ev))));
       RedisRPush (PoppitQueue config) (commandJSON config md) None;
       RedisPublish (TimeBombChannel config)
         (cleanupJSON config (ItemChannel (Item (Event ev))) (ItemTs (Item (Event ev))))
         None]
      (emit w LogLevelInfo (lineProcessing config ev)
       ++ emit w LogLevelInfo (lineFound md)
       ++ emit w LogLevelInfo (lineQueued md)
       ++ emit w LogLevelInfo (lineTTL config ev)).

(** [payload] deserialized into [PRMetadata] the way [getMessageMetadata]
    does it: encoded as JSON, then decoded into the struct. *)
Definition deserialize (payload : P) : error + PRMetadata :=
  match json_Marshal_EventPayload out payload with
  | inl err => inl (Errorf "failed to marshal metadata" err)
  | inr metadataJSON =>
      match json_Unmarshal_PRMetadata out metadataJSON with
      | inl err => inl (Errorf "failed to unmarshal PR metadata" err)
      | inr metadata => inr metadata
      end
  end.

End Vocabulary.

(** The line the loop logs for what the handler returned. *)
Definition lineHandlerError (w : World) (result : option error) : list string :=
  match result with
  | Some err => emit w LogLevelError ("[ERROR] Error handling reaction message: " ++ err)
  | None => []
  end.

(** ** Reading the trace of the receive loop *)

(** The deliveries the loop consumes: those before the first turn that
    finds the context cancelled. *)
Fixpoint consumed (bus : list Delivery) : list (error + string) :=
  match bus with
  | Received res :: rest => res :: consumed rest
  | _ => []
  end.

(** The entries appended to the work queue, each with the number of
    messages received when it was pushed: an entry tagged [n] was pushed
    while the [n]-th delivery was being handled.  [seen] counts the
    deliveries received before [t]. *)
Fixpoint triggers (seen : nat) (t : list Request) : list (nat * (string * string)) :=
  match t with
  | [] => []
  | RedisReceiveMessage _ :: t' => triggers (S seen) t'
  | RedisRPush key value None :: t' => (seen, (key, value)) :: triggers seen t'
  | _ :: t' => triggers seen t'
  end.

(** The requests of the loop on [bus]: per delivery consumed, the receive
    itself and, for a message, the requests of its handling. *)
Inductive LoopTrace {P} (out : Outside P) (config : Config)
  : list Delivery -> list Request -> Prop :=
| LoopWaiting : LoopTrace out config [] []
| LoopReturned rest : LoopTrace out config (CtxDone :: rest) []
| LoopReceiveError err rest evs :
    LoopTrace out config rest evs ->
    LoopTrace out config (Received (inl err) :: rest)
      (RedisReceiveMessage (inl err) :: evs)
| LoopMessage payload rest w result handling lines evs :
    Outcome out config payload w result handling lines ->
    LoopTrace out config rest evs ->
    LoopTrace out config (Received (inr payload) :: rest)
      (RedisReceiveMessage (inr payload) :: handling ++ evs).

(** ** The configuration built from an environment *)

(** The configuration [loadConfig] builds, given the TTL it read. *)
Definition configOf (env : Environ) (ttl : Z) : Config :=
  {| SlackBotToken := getEnv env "SLACK_BOT_TOKEN" "";
     RedisAddr := getEnv env "REDIS_ADDR" "localhost:6379";
     RedisPassword := getEnv env "REDIS_PASSWORD" "";
     RedisDB := 0;
     WorkDir := getEnv env "WORK_DIR" "/tmp/vibemerge";
     TargetEmoji := getEnv env "TARGET_EMOJI" "heart_eyes_cat";
     TargetBranch := getEnv env "TARGET_BRANCH" "refs/heads/main";
     PoppitQueue := getEnv env "POPPIT_QUEUE" "poppit-commands";
     TimeBombChannel := getEnv env "TIMEBOMB_CHANNEL" "timebomb-messages";
     TimeBombTTL := ttl;
     ConfigLogLevel := getEnv env "LOG_LEVEL" "INFO" |}.

(** ** More vocabulary: start-up, shutdown and decimal text *)

(** The environment variables [loadConfig] reads. *)
Definition configKeys : list string :=
  [ "SLACK_BOT_TOKEN"; "REDIS_ADDR"; "REDIS_PASSWORD"; "WORK_DIR";
    "TARGET_EMOJI"; "TARGET_BRANCH"; "POPPIT_QUEUE"; "TIMEBOMB_CHANNEL";
    "TIMEBOMB_TTL"; "LOG_LEVEL" ].

(** Every history request made to Slack. *)
Definition slackRequests (t : list Request) : list HistoryParams :=
  omap (fun r => match r with
                 | SlackGetConversationHistory params => Some params
                 | _ => None
                 end) t.

(** The [pubsub.Close()] calls. *)
Definition pubsubCloses (t : list Request) : list unit :=
  omap (fun r => match r with
                 | RedisPubSubClose => Some tt
                 | _ => None
                 end) t.

(** Whether some turn of the loop finds the context cancelled. *)
Definition cancelled (bus : list Delivery) : bool :=
  existsb (fun d => match d with CtxDone => true | Received _ => false end) bus.

(** The number a string of decimal digits denotes, read from the left
    with [acc] for the digits already read. *)
Fixpoint decimalValue (acc : Z) (d : Decimal.uint) : Z :=
  match d with
  | Decimal.Nil => acc
  | Decimal.D0 d => decimalValue (10 * acc + 0) d
  | Decimal.D1 d => decimalValue (10 * acc + 1) d
  | Decimal.D2 d => decimalValue (10 * acc + 2) d
  | Decimal.D3 d => decimalValue (10 * acc + 3) d
  | Decimal.D4 d => decimalValue (10 * acc + 4) d
  | Decimal.D5 d => decimalValue (10 * acc + 5) d
  | Decimal.D6 d => decimalValue (10 * acc + 6) d
  | Decimal.D7 d => decimalValue (10 * acc + 7) d
  | Decimal.D8 d => decimalValue (10 * acc + 8) d
  | Decimal.D9 d => decimalValue (10 * acc + 9) d
  end.

(** A stand-in whose Slack history holds one message without metadata. *)
Definition bareOutside : Outside string :=
  tableOutside sampleEvents [("meta42", sampleMetadata)]
               (inr [ mkMessage "" "meta42" ]) None None.

(** A stand-in whose Redis does not answer the ping. *)
Definition downOutside : Outside string :=
  {| json_Unmarshal_ReactionEvent := json_Unmarshal_ReactionEvent (sampleOutside None None);
     json_Marshal_EventPayload := json_Marshal_EventPayload (sampleOutside None None);
     json_Unmarshal_PRMetadata := json_Unmarshal_PRMetadata (sampleOutside None None);
     slack_GetConversationHistory := slack_GetConversationHistory (sampleOutside None None);
     redis_Ping := fun _ => Some "dial tcp: connection refused";
     redis_RPush := fun _ _ _ => None;
     redis_Publish := fun _ _ _ => None |}.

(** ** The trace expected of the receive loop *)

(** Every [SUBSCRIBE]. *)
Definition subscriptions (t : list Request) : list string :=
  omap (fun r => match r with
                 | RedisSubscribe channel => Some channel
                 | _ => None
                 end) t.

(** The requests the pipeline makes for one message, step by step, when
    [n] requests were made before it: none unless the payload decodes and
    the reaction is the target emoji; then the Slack lookup for the event's
    channel and timestamp; then, when the lookup gives usable metadata, the
    push of the command payload built from that metadata; then, when the
    push succeeded, the publish of the cleanup request for the event. *)
Definition handlingRequests {P} (out : Outside P) (config : Config)
    (payload : string) (n : nat) : list Request :=
  match json_Unmarshal_ReactionEvent out payload with
  | inl _ => []
  | inr ev =>
      if String.eqb (Reaction (Event ev)) (TargetEmoji config) then
        let channel := ItemChannel (Item (Event ev)) in
        let timestamp := ItemTs (Item (Event ev)) in
        let lookup :=
          SlackGetConversationHistory (historyParams channel timestamp) in
        match metadataFromHistory out timestamp
                (slack_GetConversationHistory out n
                   (historyParams channel timestamp)) with
        | inr (Some md) =>
            let entry := encodePoppitPayload (commandPayload config md) in
            match redis_RPush out (n + 1) (PoppitQueue config) entry with
            | Some err =>
                [lookup; RedisRPush (PoppitQueue config) entry (Some err)]
            | None =>
                let message :=
                  encodeTimeBombMessage
                    (cleanupRequest config channel timestamp) in
                [lookup;
                 RedisRPush (PoppitQueue config) entry None;
                 RedisPublish (TimeBombChannel config) message
                   (redis_Publish out (n + 2) (TimeBombChannel config) message)]
            end
        | _ => [lookup]
        end
      else []
  end.

(** The requests of the loop on [bus] when [n] requests were made before
    it: delivery after delivery, up to the first turn that finds the
    context cancelled, the receive itself followed, for a message, by the
    requests of the pipeline on that very message. *)
Fixpoint loopRequests {P} (out : Outside P) (config : Config)
    (bus : list Delivery) (n : nat) : list Request :=
  match bus with
  | [] => []
  | CtxDone :: _ => []
  | Received (inl err) :: rest =>
      RedisReceiveMessage (inl err) :: loopRequests out config rest (n + 1)
  | Received (inr payload) :: rest =>
      let handling := handlingRequests out config payload (n + 1) in
      RedisReceiveMessage (inr payload)
      :: handling ++ loopRequests out config rest (n + 1 + length handling)
  end.

(** [entry] is the queue entry built from the message [payload]: the
    payload decodes to a reaction with the target emoji, Slack returned
    usable metadata [md] for the channel and timestamp of that reaction,
    and the entry is, on the configured queue, the JSON text of the command
    payload made of [md] and the configuration. *)
Definition builtFrom {P} (out : Outside P) (config : Config)
    (payload : string) (entry : string * string) : Prop :=
  exists ev md tick,
    json_Unmarshal_ReactionEvent out payload = inr ev
    /\ Reaction (Event ev) = TargetEmoji config
    /\ metadataFromHistory out (ItemTs (Item (Event ev)))
         (slack_GetConversationHistory out tick
            (historyParams (ItemChannel (Item (Event ev)))
               (ItemTs (Item (Event ev)))))
       = inr (Some md)
    /\ entry
       = (PoppitQueue config,
          encodePoppitPayload
            {| Repo := Repository md;
               Branch := TargetBranch config;
               Type_ := EventAction md;
               Dir := WorkDir config;
               Commands :=
                 [ "gh pr --repo " ++ Repository md ++ " ready "
                   ++ itoa (PRNumber md);
                   "gh pr --repo " ++ Repository md ++ " merge "
                   ++ itoa (PRNumber md) ++ " --squash" ] |}).

(** A stand-in with two reacted messages, in channels [CA] and [CB], whose
    metadata name the repositories [org/a] and [org/b]. *)
Definition metadataFor (prNumber : Z) (repository : string) : PRMetadata :=
  {| PRNumber := prNumber; Repository := repository; PRURL := ""; Author := "";
     MetaBranch := ""; EventAction := "opened" |}.

Definition twoRepoOutside : Outside string :=
  {| json_Unmarshal_ReactionEvent := fun text =>
       match assoc text [ ("A", reactionOn "heart_eyes_cat" "CA" "1.1");
                          ("B", reactionOn "heart_eyes_cat" "CB" "2.2") ] with
       | Some ev => inr ev
       | None => inl "unexpected end of JSON input"
       end;
     json_Marshal_EventPayload := fun payload => inr payload;
     json_Unmarshal_PRMetadata := fun text =>
       match assoc text [ ("metaA", metadataFor 1 "org/a");
                          ("metaB", metadataFor 2 "org/b") ] with
       | Some md => inr md
       | None => inl "unexpected end of JSON input"
       end;
     slack_GetConversationHistory := fun _ params =>
       if String.eqb (ChannelID params) "CA"
       then inr [ mkMessage "pr" "metaA" ]
       else inr [ mkMessage "pr" "metaB" ];
     redis_Ping := fun _ => None;
     redis_RPush := fun _ _ _ => None;
     redis_Publish := fun _ _ _ => None |}.

(** * Properties *)

(** ** Worlds and their extensions *)

Lemma since_extend w evs lines : since w (extend w evs lines) = evs.
Proof. unfold since, now, extend; simpl. apply drop_app_length. Qed.

Lemma extend_extend w evs1 lines1 evs2 lines2 :
  extend (extend w evs1 lines1) evs2 lines2
  = extend w (evs1 ++ evs2) (lines1 ++ lines2).
Proof. unfold extend; simpl. now rewrite <- !app_assoc. Qed.

Lemma extend_nil w : extend w [] [] = w.
Proof. destruct w; unfold extend; simpl. now rewrite !app_nil_r. Qed.

Lemma now_extend w evs lines : now (extend w evs lines) = now w + length evs.
Proof. unfold now, extend; simpl. apply length_app. Qed.

Lemma emit_extend w evs lines l line :
  emit (extend w evs lines) l line = emit w l line.
Proof. reflexivity. Qed.

Lemma loggedSince_extend w evs lines : loggedSince w (extend w evs lines) = lines.
Proof. unfold loggedSince, extend; simpl. apply drop_app_length. Qed.

(** ** The steps of the monad, as extensions of the world *)

Lemma request_extend r w : request r w = (tt, extend w [r] []).
Proof. destruct w; unfold request, extend; simpl. now rewrite app_nil_r. Qed.

Lemma log_Printf_extend line w : log_Printf line w = (tt, extend w [] [line]).
Proof. destruct w; unfold log_Printf, extend; simpl. now rewrite app_nil_r. Qed.

Lemma logDebug_extend msg w :
  logDebug msg w = (tt, extend w [] (emit w LogLevelDebug ("[DEBUG] " ++ msg))).
Proof.
  unfold logDebug, emit. destruct (enabled _ w).
  - apply log_Printf_extend.
  - now rewrite extend_nil.
Qed.

Lemma logInfo_extend msg w :
  logInfo msg w = (tt, extend w [] (emit w LogLevelInfo ("[INFO] " ++ msg))).
Proof.
  unfold logInfo, emit. destruct (enabled _ w).
  - apply log_Printf_extend.
  - now rewrite extend_nil.
Qed.

Lemma logWarning_extend msg w :
  logWarning msg w = (tt, extend w [] (emit w LogLevelWarning ("[WARNING] " ++ msg))).
Proof.
  unfold logWarning, emit. destruct (enabled _ w).
  - apply log_Printf_extend.
  - now rewrite extend_nil.
Qed.

Lemma logError_extend msg w :
  logError msg w = (tt, extend w [] (emit w LogLevelError ("[ERROR] " ++ msg))).
Proof.
  unfold logError, emit. destruct (enabled _ w).
  - apply log_Printf_extend.
  - now rewrite extend_nil.
Qed.

Lemma bind_run {A B} (m : M A) (k : A -> M B) w a w' :
  m w = (a, w') -> bind m k w = k a w'.
Proof. unfold bind. now intros ->. Qed.

(** ** Tactics *)

Ltac normalize :=
  rewrite ?extend_extend, ?now_extend, ?emit_extend; cbn [app length];
  rewrite ?app_nil_r.

Ltac same_world :=
  unfold ret; cbn [fst snd app]; rewrite ?app_nil_r, <- ?app_assoc; reflexivity.

(** Case analysis on an [Outcome], then on the membership facts about its
    requests. *)
Ltac split_requests :=
  repeat match goal with
    | H : In _ (_ :: _) |- _ => destruct H as [H|H]
    | H : In _ [] |- _ => destruct H
    | H : @eq Request _ _ |- _ => progress simplify_eq
    end.

(** Two equations on the same scrutinee: keep one, use the other. *)
Ltac same_facts :=
  repeat match goal with
    | H1 : ?x = _, H2 : ?x = _ |- _ => rewrite H1 in H2; simplify_eq
    end.

Ltac outcome_cases H :=
  inversion H; subst; clear H; split_requests; try congruence; same_facts.

Ltac crush :=
  intros;
  repeat match goal with
    | H : exists _, _ |- _ => destruct H
    | H : _ /\ _ |- _ => destruct H
    | H : _ \/ _ |- _ => destruct H
    end;
  simplify_eq; try congruence; try contradiction; eauto 10.

(** ** The handler, step by step *)

Section Pipeline.

Context {P : Type} (out : Outside P).

Lemma GetConversationHistory_extend params w :
  GetConversationHistory out params w
  = (slack_GetConversationHistory out (now w) params,
     extend w [SlackGetConversationHistory params] []).
Proof. unfold GetConversationHistory. now rewrite request_extend. Qed.

Lemma Ping_extend w :
  Ping out w = (redis_Ping out (now w), extend w [RedisPing (redis_Ping out (now w))] []).
Proof. unfold Ping. now rewrite request_extend. Qed.

Lemma RPush_extend key value w :
  RPush out key value w
  = (redis_RPush out (now w) key value,
     extend w [RedisRPush key value (redis_RPush out (now w) key value)] []).
Proof. unfold RPush. now rewrite request_extend. Qed.

Lemma Publish_extend channel message w :
  Publish out channel message w
  = (redis_Publish out (now w) channel message,
     extend w [RedisPublish channel message (redis_Publish out (now w) channel message)] []).
Proof. unfold Publish. now rewrite request_extend. Qed.

Lemma getMessageMetadata_extend channel timestamp w :
  getMessageMetadata out channel timestamp w
  = (metadataFromHistory out timestamp
       (slack_GetConversationHistory out (now w) (historyParams channel timestamp)),
     extend w [SlackGetConversationHistory (historyParams channel timestamp)] []).
Proof.
  unfold getMessageMetadata.
  erewrite bind_run by apply GetConversationHistory_extend.
  reflexivity.
Qed.

Lemma cleanupJSON_marshal config channel timestamp :
  json_Marshal_TimeBombMessage (cleanupRequest config channel timestamp)
  = inr (cleanupJSON config channel timestamp).
Proof. reflexivity. Qed.

Lemma publishTimeBombMessage_extend config channel timestamp w :
  let msgJSON := cleanupJSON config channel timestamp in
  let reply := redis_Publish out (now w) (TimeBombChannel config) msgJSON in
  publishTimeBombMessage out config channel timestamp w
  = (option_map (Errorf ("failed to publish to " ++ TimeBombChannel config)) reply,
     extend w [RedisPublish (TimeBombChannel config) msgJSON reply]
       (match reply with
        | Some _ => []
        | None =>
            emit w LogLevelInfo
              ("[INFO] Successfully set TTL of " ++ itoa (TimeBombTTL config)
               ++ " seconds on message " ++ timestamp
               ++ " in channel " ++ channel)
        end)).
Proof.
  intros msgJSON reply. unfold publishTimeBombMessage.
  change (json_Marshal_TimeBombMessage _) with (@inr error string msgJSON).
  cbv iota beta.
  erewrite bind_run by apply Publish_extend.
  fold reply. destruct reply as [err|]; [reflexivity|].
  erewrite bind_run by apply logInfo_extend.
  normalize. reflexivity.
Qed.

Lemma commandJSON_marshal config metadata :
  json_Marshal_PoppitPayload (commandPayload config metadata)
  = inr (commandJSON config metadata).
Proof. reflexivity. Qed.

Lemma handleReactionMessage_outcome config payload w :
  exists evs lines,
    Outcome out config payload w (fst (handleReactionMessage out payload config w)) evs lines
    /\ snd (handleReactionMessage out payload config w) = extend w evs lines.
Proof.
  unfold handleReactionMessage.
  destruct (json_Unmarshal_ReactionEvent out payload) as [err|ev] eqn:Hdec.
  { exists [], []. split; [now apply DecodeFailed | now rewrite extend_nil]. }
  destruct (String.eqb_spec (Reaction (Event ev)) (TargetEmoji config)) as [Hre|Hre];
    cbv [negb].
  2:{ erewrite bind_run by apply logDebug_extend.
      eexists [], _. split; [eapply ReactionIgnored; eassumption | reflexivity]. }
  erewrite bind_run by apply logInfo_extend.
  erewrite bind_run by apply getMessageMetadata_extend.
  normalize. rewrite Nat.add_0_r. fold (fetched out ev w).
  destruct (fetched out ev w) as [err|[md|]] eqn:Hfetch.
  { eexists _, _. split; [eapply FetchFailed; eassumption |].
    same_world. }
  2:{ erewrite bind_run by apply logDebug_extend. normalize.
      eexists _, _. split; [eapply NoMetadata; eassumption | same_world]. }
  erewrite bind_run by apply logInfo_extend.
  change (json_Marshal_PoppitPayload _) with (@inr error string (commandJSON config md)).
  cbv iota beta.
  erewrite bind_run by apply RPush_extend.
  normalize.
  destruct (redis_RPush out (now w + 1) _ _) as [err|] eqn:Hpush.
  { eexists _, _. split; [eapply PushFailed; eassumption |].
    same_world. }
  erewrite bind_run by apply logInfo_extend.
  erewrite bind_run by apply publishTimeBombMessage_extend.
  normalize.
  destruct (redis_Publish out (now w + 2) _ _) as [err|] eqn:Hpub;
    cbv [option_map].
  - erewrite bind_run by apply logWarning_extend. normalize.
    eexists _, _. split; [eapply CleanupFailed; eassumption |].
    same_world.
  - normalize.
    eexists _, _. split; [eapply Completed; eassumption |].
    same_world.
Qed.

End Pipeline.

Ltac run_handler out config payload w :=
  let evs := fresh "evs" in
  let lines := fresh "lines" in
  let Hout := fresh "Hout" in
  let Hw := fresh "Hw" in
  destruct (handleReactionMessage_outcome out config payload w)
    as (evs & lines & Hout & Hw);
  rewrite Hw in *; rewrite ?since_extend, ?loggedSince_extend in *.

(** ** The claims about the per-message pipeline *)

(** C1. For a reaction event whose reaction equals the configured target
    emoji and whose metadata fetch returns valid metadata, the handler
    attempts exactly one work-queue push, on the configured queue, and the
    entry is the JSON encoding of the object with [repo] the metadata's
    repository, [branch] the configured target branch, [type] the
    metadata's event action, [dir] the configured working directory and
    [commands] the ready command followed by the squash-merge command; when
    Redis accepts the push, that entry is what the queue gains. *)
Theorem work_queue_entry_exact {P} (out : Outside P) config payload w ev md :
  json_Unmarshal_ReactionEvent out payload = inr ev ->
  Reaction (Event ev) = TargetEmoji config ->
  fst (getMessageMetadata out (ItemChannel (Item (Event ev)))
         (ItemTs (Item (Event ev))) w) = inr (Some md) ->
  exists entry,
    json_Marshal_PoppitPayload
      {| Repo := Repository md;
         Branch := TargetBranch config;
         Type_ := EventAction md;
         Dir := WorkDir config;
         Commands :=
           [ "gh pr --repo " ++ Repository md ++ " ready " ++ itoa (PRNumber md);
             "gh pr --repo " ++ Repository md ++ " merge " ++ itoa (PRNumber md)
               ++ " --squash" ] |} = inr entry
    /\ pushAttempts (since w (snd (handleReactionMessage out payload config w)))
       = [(PoppitQueue config, entry)]
    /\ (redis_RPush out (now w + 1) (PoppitQueue config) entry = None ->
        queued (since w (snd (handleReactionMessage out payload config w)))
        = [(PoppitQueue config, entry)]).
Proof.
  intros Hdec Hre Hfetch.
  rewrite getMessageMetadata_extend in Hfetch. cbn [fst] in Hfetch.
  fold (fetched out ev w) in Hfetch.
  exists (commandJSON config md). split; [reflexivity|].
  run_handler out config payload w.
  outcome_cases Hout; same_facts;
    (split; [reflexivity | intros Hok; cbn; congruence]).
Qed.

(** The entry of the specification's example: metadata
    [{pr_number: 42, repository: "org/repo"}], branch [refs/heads/main],
    directory [/tmp/vibemerge]. *)
Lemma work_queue_entry_exact_witness :
  exists entry,
    entry = (dq "{'repo':'org/repo','branch':'refs/heads/main','type':'review_requested','dir':'/tmp/vibemerge','commands':['gh pr --repo org/repo ready 42','gh pr --repo org/repo merge 42 --squash']}")
    /\ pushAttempts
         (since initialWorld
            (snd (handleReactionMessage (sampleOutside None None) "cat"
                    defaultConfig initialWorld)))
       = [("poppit-commands", entry)].
Proof.
  destruct (work_queue_entry_exact (sampleOutside None None) defaultConfig "cat"
              initialWorld
              (reactionOn "heart_eyes_cat" "C123456" "1766236581.981479")
              sampleMetadata)
    as (entry & Hentry & Hpush & _); [reflexivity | reflexivity | reflexivity |].
  exists entry. split; [|exact Hpush].
  injection Hentry as <-. reflexivity.
Defined.

(** One turn of the loop on a message: the receive, the handler, the error
    line if the handler failed; then the loop goes on with the rest. *)
Lemma receiveLoop_message {P} (out : Outside P) config payload rest w :
  exists result evs lines,
    Outcome out config payload (extend w [RedisReceiveMessage (inr payload)] [])
      result evs lines
    /\ receiveLoop out config (Received (inr payload) :: rest) w
       = receiveLoop out config rest
           (extend w (RedisReceiveMessage (inr payload) :: evs)
              (lines ++ lineHandlerError w result)).
Proof.
  set (w1 := extend w [RedisReceiveMessage (inr payload)] []).
  destruct (handleReactionMessage_outcome out config payload w1)
    as (evs & lines & Hout & Hw).
  exists (fst (handleReactionMessage out payload config w1)), evs, lines.
  split; [exact Hout|].
  cbn [receiveLoop].
  erewrite bind_run by apply request_extend. fold w1.
  erewrite bind_run by apply surjective_pairing.
  rewrite Hw.
  destruct (fst (handleReactionMessage out payload config w1)) as [err|].
  - erewrite bind_run by apply logError_extend.
    unfold w1. normalize. reflexivity.
  - unfold ret at 1. unfold bind at 1.
    unfold w1. normalize. reflexivity.
Qed.

Lemma receiveLoop_error {P} (out : Outside P) config err rest w :
  receiveLoop out config (Received (inl err) :: rest) w
  = receiveLoop out config rest
      (extend w [RedisReceiveMessage (inl err)]
         (emit w LogLevelError ("[ERROR] Error receiving message: " ++ err))).
Proof.
  cbn [receiveLoop].
  erewrite bind_run by apply request_extend.
  erewrite bind_run by apply logError_extend.
  normalize. reflexivity.
Qed.

(** C2. An inbound message that fails to decode, or whose decoded reaction
    is not the configured target emoji, makes the loop do nothing but
    receive it: no work-queue push and no cleanup publish is attempted, and
    the loop goes on with the next delivery. *)
Theorem undecodable_or_other_reaction_skipped {P} (out : Outside P)
    config payload rest w :
  (exists err, json_Unmarshal_ReactionEvent out payload = inl err)
  \/ (exists ev, json_Unmarshal_ReactionEvent out payload = inr ev
                 /\ Reaction (Event ev) <> TargetEmoji config) ->
  exists w',
    receiveLoop out config (Received (inr payload) :: rest) w
    = receiveLoop out config rest w'
    /\ since w w' = [RedisReceiveMessage (inr payload)]
    /\ pushAttempts (since w w') = []
    /\ cleanupAttempts (since w w') = [].
Proof.
  intros Hskip.
  destruct (receiveLoop_message out config payload rest w)
    as (result & evs & lines & Hout & Hloop).
  eexists. split; [exact Hloop|].
  rewrite since_extend.
  assert (evs = []) as ->.
  { destruct Hskip as [[err Hdec]|(ev & Hdec & Hre)];
      inversion Hout; subst; try reflexivity; same_facts; congruence. }
  repeat split.
Qed.

Lemma undecodable_or_other_reaction_skipped_witness :
  (exists w',
     receiveLoop (sampleOutside None None) defaultConfig
       [Received (inr "junk"); Received (inr "cat")] initialWorld
     = receiveLoop (sampleOutside None None) defaultConfig
         [Received (inr "cat")] w'
     /\ since initialWorld w' = [RedisReceiveMessage (inr "junk")]
     /\ pushAttempts (since initialWorld w') = []
     /\ cleanupAttempts (since initialWorld w') = [])
  /\ (exists w',
        receiveLoop (sampleOutside None None) defaultConfig
          [Received (inr "thumbsup")] initialWorld
        = receiveLoop (sampleOutside None None) defaultConfig [] w'
        /\ since initialWorld w' = [RedisReceiveMessage (inr "thumbsup")]
        /\ pushAttempts (since initialWorld w') = []
        /\ cleanupAttempts (since initialWorld w') = []).
Proof.
  split.
  - apply (undecodable_or_other_reaction_skipped (sampleOutside None None)).
    left. eexists. reflexivity.
  - apply (undecodable_or_other_reaction_skipped (sampleOutside None None)).
    right. eexists. split; [reflexivity | discriminate].
Defined.

(** ** The metadata fetcher *)

Lemma metadataFromHistory_message {P} (out : Outside P) timestamp
    (message : Message P) rest :
  metadataFromHistory out timestamp (inr (message :: rest))
  = if String.eqb (EventType message) "" then inr None
    else match deserialize out (EventPayload message) with
         | inl err => inl err
         | inr md =>
             if (PRNumber md =? 0)%Z || String.eqb (Repository md) ""
             then inr None else inr (Some md)
         end.
Proof.
  unfold metadataFromHistory, deserialize.
  destruct (String.eqb _ ""); [reflexivity|].
  destruct (json_Marshal_EventPayload out _); [reflexivity|].
  destruct (json_Unmarshal_PRMetadata out _); reflexivity.
Qed.

Lemma usable_metadata md :
  ((PRNumber md =? 0)%Z || String.eqb (Repository md) "" = false)
  <-> (PRNumber md <> 0%Z /\ Repository md <> "").
Proof.
  rewrite orb_false_iff, Z.eqb_neq, String.eqb_neq. reflexivity.
Qed.

Lemma unusable_metadata md :
  ((PRNumber md =? 0)%Z || String.eqb (Repository md) "" = true)
  <-> (PRNumber md = 0%Z \/ Repository md = "").
Proof.
  rewrite orb_true_iff, Z.eqb_eq, String.eqb_eq. reflexivity.
Qed.

(** C3. Given a channel and a timestamp, [getMessageMetadata]
    - returns the parsed metadata exactly when the history holds a message
      that carries metadata (its event type is not empty, the test the code
      makes), whose payload deserializes into [PRMetadata] with a non-zero
      [pr_number] and a non-empty [repository];
    - returns "no metadata" without error exactly when the first message
      carries no metadata or the deserialized payload has one of the two
      fields at its zero value;
    - returns an error exactly when the call to Slack fails, when no
      message is found, or when a payload that is present does not
      deserialize. *)
Theorem metadata_fetcher_outcomes {P} (out : Outside P) channel timestamp w :
  let reply :=
    slack_GetConversationHistory out (now w) (historyParams channel timestamp) in
  let result := fst (getMessageMetadata out channel timestamp w) in
  (forall md,
      result = inr (Some md)
      <-> exists message rest,
            reply = inr (message :: rest)
            /\ EventType message <> ""
            /\ deserialize out (EventPayload message) = inr md
            /\ PRNumber md <> 0%Z /\ Repository md <> "")
  /\ (result = inr None
      <-> exists message rest,
            reply = inr (message :: rest)
            /\ (EventType message = ""
                \/ exists md, deserialize out (EventPayload message) = inr md
                              /\ (PRNumber md = 0%Z \/ Repository md = "")))
  /\ ((exists err, result = inl err)
      <-> (exists err, reply = inl err)
          \/ reply = inr []
          \/ exists message rest,
               reply = inr (message :: rest)
               /\ EventType message <> ""
               /\ exists err, deserialize out (EventPayload message) = inl err).
Proof.
  intros reply result. subst result.
  rewrite getMessageMetadata_extend. cbn [fst]. fold reply.
  destruct reply as [err|[|message rest]].
  - (* the call failed *)
    cbn [metadataFromHistory]. repeat split; crush.
  - (* no message *)
    cbn [metadataFromHistory]. repeat split; crush.
  - rewrite metadataFromHistory_message.
    destruct (String.eqb_spec (EventType message) "") as [Hty|Hty].
    { (* the message carries no metadata *)
      repeat split; crush. }
    destruct (deserialize out (EventPayload message)) as [err|md0] eqn:Hde.
    { (* the payload does not deserialize *)
      repeat split; crush. }
    destruct ((PRNumber md0 =? 0)%Z || String.eqb (Repository md0) "") eqn:Hdef.
    + (* a required field is at its zero value *)
      apply unusable_metadata in Hdef.
      repeat split; crush.
    + (* usable metadata *)
      apply usable_metadata in Hdef. destruct Hdef as [Hn Hr].
      repeat split; crush.
Qed.

(** ** Work queue first, cleanup second *)

(** C4. When the work-queue push of an event succeeded and the cleanup
    publish then failed, the handler still returns no error, the queue has
    gained exactly the pushed entry, and apart from the informational lines
    of the pipeline the only line logged is the warning about the TTL. *)
Theorem cleanup_failure_not_fatal {P} (out : Outside P) config payload w
    key value channel message err :
  In (RedisRPush key value None)
     (since w (snd (handleReactionMessage out payload config w))) ->
  In (RedisPublish channel message (Some err))
     (since w (snd (handleReactionMessage out payload config w))) ->
  fst (handleReactionMessage out payload config w) = None
  /\ queued (since w (snd (handleReactionMessage out payload config w)))
     = [(key, value)]
  /\ exists ev md,
       loggedSince w (snd (handleReactionMessage out payload config w))
       = (emit w LogLevelInfo (lineProcessing config ev)
          ++ emit w LogLevelInfo (lineFound md)
          ++ emit w LogLevelInfo (lineQueued md)
          ++ emit w LogLevelWarning
               ("[WARNING] Failed to set TTL on message: failed to publish to "
                ++ channel ++ ": " ++ err))%list.
Proof.
  intros Hpush Hpub.
  destruct (handleReactionMessage_outcome out config payload w)
    as (evs & lines & Hout & Hw).
  rewrite Hw in *. rewrite since_extend, loggedSince_extend in *.
  inversion Hout; subst; clear Hout; split_requests;
    (split; [congruence|]); (split; [reflexivity|]).
  exists ev, md. reflexivity.
Qed.

Lemma cleanup_failure_not_fatal_witness :
  fst (handleReactionMessage (sampleOutside None (Some "EOF")) "cat"
         defaultConfig initialWorld) = None
  /\ queued (since initialWorld
               (snd (handleReactionMessage (sampleOutside None (Some "EOF")) "cat"
                       defaultConfig initialWorld)))
     = [("poppit-commands",
         (dq "{'repo':'org/repo','branch':'refs/heads/main','type':'review_requested','dir':'/tmp/vibemerge','commands':['gh pr --repo org/repo ready 42','gh pr --repo org/repo merge 42 --squash']}"))].
Proof.
  destruct (cleanup_failure_not_fatal (sampleOutside None (Some "EOF"))
              defaultConfig "cat" initialWorld
              "poppit-commands"
              (dq "{'repo':'org/repo','branch':'refs/heads/main','type':'review_requested','dir':'/tmp/vibemerge','commands':['gh pr --repo org/repo ready 42','gh pr --repo org/repo merge 42 --squash']}")
              "timebomb-messages"
              (dq "{'channel':'C123456','ts':'1766236581.981479','ttl':86400}")
              "EOF")
    as (Hres & Hq & _).
  - vm_compute. right. left. reflexivity.
  - vm_compute. right. right. left. reflexivity.
  - split; [exact Hres | exact Hq].
Defined.

(** C5. When the work-queue push of an event succeeded, exactly one
    cleanup publish is attempted, on the configured cleanup channel, and
    its message is the JSON encoding of the request with the channel and
    timestamp of the triggering reaction event and the configured TTL. *)
Theorem one_cleanup_per_queued_entry {P} (out : Outside P) config payload w
    key value :
  In (RedisRPush key value None)
     (since w (snd (handleReactionMessage out payload config w))) ->
  exists ev message,
    json_Unmarshal_ReactionEvent out payload = inr ev
    /\ json_Marshal_TimeBombMessage
         {| Channel := ItemChannel (Item (Event ev));
            Ts := ItemTs (Item (Event ev));
            TTL := TimeBombTTL config |} = inr message
    /\ cleanupAttempts (since w (snd (handleReactionMessage out payload config w)))
       = [(TimeBombChannel config, message)].
Proof.
  intros Hpush.
  destruct (handleReactionMessage_outcome out config payload w)
    as (evs & lines & Hout & Hw).
  rewrite Hw in *. rewrite since_extend in *.
  inversion Hout; subst; clear Hout; split_requests;
    (exists ev; eexists; split; [eassumption|]; split; reflexivity).
Qed.

Lemma one_cleanup_per_queued_entry_witness :
  cleanupAttempts
    (since initialWorld
       (snd (handleReactionMessage (sampleOutside None None) "cat"
               defaultConfig initialWorld)))
  = [("timebomb-messages",
      (dq "{'channel':'C123456','ts':'1766236581.981479','ttl':86400}"))].
Proof.
  destruct (one_cleanup_per_queued_entry (sampleOutside None None)
              defaultConfig "cat" initialWorld
              "poppit-commands"
              (dq "{'repo':'org/repo','branch':'refs/heads/main','type':'review_requested','dir':'/tmp/vibemerge','commands':['gh pr --repo org/repo ready 42','gh pr --repo org/repo merge 42 --squash']}"))
    as (ev & message & Hdec & Hmsg & Hc).
  - vm_compute. right. left. reflexivity.
  - injection Hdec as <-. injection Hmsg as <-. exact Hc.
Defined.



(** ** The receive loop *)

Lemma triggers_app seen t1 t2 :
  triggers seen (t1 ++ t2)
  = (triggers seen t1 ++ triggers (seen + length (received t1)) t2)%list.
Proof.
  revert seen. induction t1 as [|r t1 IH]; intros seen; cbn [app].
  - cbn. now rewrite Nat.add_0_r.
  - destruct r as [| | | | | | | |key value [err|]| ]; cbn; rewrite IH; cbn;
      try reflexivity.
    now rewrite Nat.add_succ_r.
Qed.

Lemma receiveLoop_trace {P} (out : Outside P) config bus :
  forall w, exists evs lines,
    snd (receiveLoop out config bus w) = extend w evs lines
    /\ LoopTrace out config bus evs.
Proof.
  induction bus as [|[|[err|payload]] rest IH]; intros w.
  - exists [], []. split; [now rewrite extend_nil | constructor].
  - exists [], []. split; [now rewrite extend_nil | constructor].
  - rewrite receiveLoop_error.
    destruct (IH (extend w [RedisReceiveMessage (inl err)]
                    (emit w LogLevelError ("[ERROR] Error receiving message: " ++ err))))
      as (evs & lines & Hw & Htr).
    rewrite Hw. normalize.
    eexists _, _. split; [reflexivity | now constructor].
  - destruct (receiveLoop_message out config payload rest w)
      as (result & handling & hlines & Hout & Hloop).
    rewrite Hloop.
    destruct (IH (extend w (RedisReceiveMessage (inr payload) :: handling)
                    (hlines ++ lineHandlerError w result)))
      as (evs & lines & Hw & Htr).
    rewrite Hw. normalize.
    eexists _, _. split; [reflexivity | econstructor; eassumption].
Qed.

Lemma Outcome_requests {P} (out : Outside P) config payload w result handling lines :
  Outcome out config payload w result handling lines ->
  received handling = []
  /\ (queued handling = [] \/ exists entry, queued handling = [entry])
  /\ forall seen, triggers seen handling = map (pair seen) (queued handling).
Proof.
  intros Hout. inversion Hout; subst; cbn; repeat split; eauto.
Qed.

Lemma LoopTrace_order {P} (out : Outside P) config bus evs :
  LoopTrace out config bus evs ->
  received evs = consumed bus
  /\ forall seen,
       map snd (triggers seen evs) = queued evs
       /\ StronglySorted lt (map fst (triggers seen evs))
       /\ forall n entry,
            In (n, entry) (triggers seen evs) ->
            exists i payload,
              n = seen + S i /\ consumed bus !! i = Some (inr payload).
Proof.
  induction 1 as [|rest|err rest evs Htr [IHr IHt]
                 |payload rest w result handling lines evs Hout Htr [IHr IHt]].
  - split; [reflexivity|]. intros seen. cbn. repeat split; [constructor | tauto].
  - split; [reflexivity|]. intros seen. cbn. repeat split; [constructor | tauto].
  - split; [cbn; now rewrite <- IHr|].
    intros seen. destruct (IHt (S seen)) as (Hq & Hs & Hin).
    cbn [triggers]. repeat split; [exact Hq | exact Hs |].
    intros n entry Hn. destruct (Hin n entry Hn) as (i & payload & -> & Hi).
    exists (S i), payload. split; [lia | exact Hi].
  - destruct (Outcome_requests out config payload w result handling lines Hout)
      as (Hrecv & Hone & Htag).
    split.
    { cbn. unfold received in *. rewrite omap_app, Hrecv, <- IHr. reflexivity. }
    intros seen. destruct (IHt (S seen)) as (Hq & Hs & Hin).
    cbn [triggers]. rewrite triggers_app, Hrecv, Htag. cbn [length].
    rewrite Nat.add_0_r.
    assert (Hlater : Forall (lt (S seen)) (map fst (triggers (S seen) evs))).
    { apply List.Forall_forall. intros n Hn. apply in_map_iff in Hn.
      destruct Hn as ([n' entry] & <- & Hn).
      destruct (Hin n' entry Hn) as (i & _ & -> & _). cbn. lia. }
    repeat split.
    + rewrite map_app, map_map, Hq. cbn [snd]. rewrite map_id.
      change (queued (RedisReceiveMessage (inr payload) :: handling ++ evs))
        with (queued (handling ++ evs)).
      unfold queued. now rewrite omap_app.
    + rewrite map_app, map_map. cbn [fst].
      destruct Hone as [->|[entry ->]]; cbn; [exact Hs|].
      constructor; assumption.
    + intros n entry Hn. apply in_app_or in Hn. destruct Hn as [Hn|Hn].
      * apply in_map_iff in Hn. destruct Hn as (e & Heq & _).
        injection Heq as <- _. exists 0, payload. split; [lia | reflexivity].
      * destruct (Hin n entry Hn) as (i & p & -> & Hi).
        exists (S i), p. split; [lia | exact Hi].
Qed.

Lemma Outcome_handlingRequests {P} (out : Outside P) config payload w
    result handling lines :
  Outcome out config payload w result handling lines ->
  handling = handlingRequests out config payload (now w).
Proof.
  intros Hout. unfold handlingRequests.
  inversion Hout; subst;
    match goal with
    | H : json_Unmarshal_ReactionEvent out payload = _ |- _ => rewrite H
    end;
    try reflexivity;
    try match goal with
      | H : Reaction _ <> TargetEmoji _ |- _ =>
          apply String.eqb_neq in H; rewrite H; reflexivity
      end;
    match goal with
    | H : Reaction _ = TargetEmoji _ |- _ => rewrite H, String.eqb_refl
    end;
    cbv zeta;
    match goal with
    | H : fetched out _ w = _ |- _ => unfold fetched in H; rewrite H
    end;
    try reflexivity;
    unfold commandJSON, cleanupJSON in *;
    repeat match goal with
      | H : redis_RPush out _ _ _ = _ |- _ => rewrite H; clear H
      | H : redis_Publish out _ _ _ = _ |- _ => rewrite H; clear H
      end;
    reflexivity.
Qed.

Lemma receiveLoop_requests {P} (out : Outside P) config bus :
  forall w, exists lines,
    snd (receiveLoop out config bus w)
    = extend w (loopRequests out config bus (now w)) lines.
Proof.
  induction bus as [|[|[err|payload]] rest IH]; intros w.
  - exists []. now rewrite extend_nil.
  - exists []. now rewrite extend_nil.
  - rewrite receiveLoop_error.
    match goal with
    | |- context [receiveLoop out config rest ?w1] =>
        destruct (IH w1) as (ls & Hw)
    end.
    rewrite Hw. normalize.
    eexists. reflexivity.
  - destruct (receiveLoop_message out config payload rest w)
      as (result & handling & hlines & Hout & Hloop).
    apply Outcome_handlingRequests in Hout.
    rewrite now_extend in Hout. cbn [length] in Hout.
    rewrite Hloop.
    match goal with
    | |- context [receiveLoop out config rest ?w1] =>
        destruct (IH w1) as (ls & Hw)
    end.
    rewrite Hw. normalize. cbn [loopRequests]. cbv zeta.
    rewrite <- Hout.
    replace (now w + S (length handling)) with (now w + 1 + length handling)
      by lia.
    eexists. reflexivity.
Qed.

Lemma Outcome_builtFrom {P} (out : Outside P) config payload w
    result handling lines :
  Outcome out config payload w result handling lines ->
  forall entry, In entry (queued handling) -> builtFrom out config payload entry.
Proof.
  intros Hout entry Hin.
  inversion Hout; subst; cbn in Hin; try contradiction;
    destruct Hin as [<-|[]];
    exists ev, md, (now w); repeat split; assumption.
Qed.

Lemma LoopTrace_builtFrom {P} (out : Outside P) config bus evs :
  LoopTrace out config bus evs ->
  forall seen n entry,
    In (n, entry) (triggers seen evs) ->
    exists i payload,
      n = seen + S i
      /\ consumed bus !! i = Some (inr payload)
      /\ builtFrom out config payload entry.
Proof.
  induction 1 as [|rest|err rest evs Htr IH
                 |payload rest w result handling lines evs Hout Htr IH];
    intros seen n entry Hn.
  - destruct Hn.
  - destruct Hn.
  - cbn [triggers] in Hn.
    destruct (IH (S seen) n entry Hn) as (i & payload & -> & Hi & Hb).
    exists (S i), payload. split; [lia | split; assumption].
  - destruct (Outcome_requests out config payload w result handling lines Hout)
      as (Hrecv & _ & Htag).
    cbn [triggers] in Hn.
    rewrite triggers_app, Hrecv, Htag in Hn. cbn [length] in Hn.
    rewrite Nat.add_0_r in Hn.
    apply in_app_or in Hn. destruct Hn as [Hn|Hn].
    + apply in_map_iff in Hn. destruct Hn as (e & Heq & He).
      injection Heq as <- <-.
      exists 0, payload. split; [lia|]. split; [reflexivity|].
      eapply Outcome_builtFrom; eassumption.
    + destruct (IH (S seen) n entry Hn) as (i & p & -> & Hi & Hb).
      exists (S i), p. split; [lia | split; assumption].
Qed.

(** C6. For every finite sequence of deliveries, the loop handles them
    one at a time in delivery order, and the work-queue entries come in the
    order of the messages that triggered them.  The requests of the loop
    are exactly: delivery after delivery, the receive and then the requests
    of the pipeline on that very message.  So each entry appended to the
    queue was pushed while one received message was being handled and is
    the entry built from that message; these messages are met in strictly
    increasing position from one entry to the next (no message triggers two
    entries and none is overtaken). *)
Theorem entries_follow_delivery_order {P} (out : Outside P) config bus w :
  let t := since w (snd (receiveLoop out config bus w)) in
  received t = consumed bus
  /\ t = loopRequests out config bus (now w)
  /\ map snd (triggers 0 t) = queued t
  /\ StronglySorted lt (map fst (triggers 0 t))
  /\ forall n entry,
       In (n, entry) (triggers 0 t) ->
       exists i payload,
         n = S i
         /\ consumed bus !! i = Some (inr payload)
         /\ builtFrom out config payload entry.
Proof.
  intros t. subst t.
  destruct (receiveLoop_requests out config bus w) as (lines' & Hreq).
  destruct (receiveLoop_trace out config bus w) as (evs & lines & Hw & Htr).
  assert (Hevs : evs = loopRequests out config bus (now w)).
  { rewrite Hreq in Hw. apply (f_equal (since w)) in Hw.
    rewrite !since_extend in Hw. now symmetry. }
  rewrite Hw, since_extend.
  destruct (LoopTrace_order out config bus evs Htr) as (Hrecv & Hord).
  destruct (Hord 0) as (Hq & Hs & _).
  repeat split; try assumption.
  intros n entry Hn.
  destruct (LoopTrace_builtFrom out config bus evs Htr 0 n entry Hn)
    as (i & payload & -> & Hi & Hb).
  exists i, payload. repeat split; assumption.
Qed.

(** Two messages about two repositories: the entries are queued in the
    order of the messages, each built from its own message. *)
Example delivery_order_two_repositories :
  queued
    (since initialWorld
       (snd (receiveLoop twoRepoOutside defaultConfig
               [Received (inr "B"); Received (inr "A")] initialWorld)))
  = [ ("poppit-commands",
       dq "{'repo':'org/b','branch':'refs/heads/main','type':'opened','dir':'/tmp/vibemerge','commands':['gh pr --repo org/b ready 2','gh pr --repo org/b merge 2 --squash']}");
      ("poppit-commands",
       dq "{'repo':'org/a','branch':'refs/heads/main','type':'opened','dir':'/tmp/vibemerge','commands':['gh pr --repo org/a ready 1','gh pr --repo org/a merge 1 --squash']}") ].
Proof. vm_compute. reflexivity. Qed.

(** The loop of the sample run: a message that is queued, one that does
    not decode, one more that is queued. *)
Example delivery_order_sample :
  triggers 0
    (since initialWorld
       (snd (receiveLoop (sampleOutside None None) defaultConfig
               [Received (inr "cat"); Received (inr "junk"); Received (inr "cat")]
               initialWorld)))
  = [(1, ("poppit-commands",
          (dq "{'repo':'org/repo','branch':'refs/heads/main','type':'review_requested','dir':'/tmp/vibemerge','commands':['gh pr --repo org/repo ready 42','gh pr --repo org/repo merge 42 --squash']}")));
     (3, ("poppit-commands",
          (dq "{'repo':'org/repo','branch':'refs/heads/main','type':'review_requested','dir':'/tmp/vibemerge','commands':['gh pr --repo org/repo ready 42','gh pr --repo org/repo merge 42 --squash']}")))].
Proof. vm_compute. reflexivity. Qed.

(** ** Configuration loading *)

Lemma getEnvInt_extend env key defaultValue w :
  exists value lines, getEnvInt env key defaultValue w = (value, extend w [] lines).
Proof.
  unfold getEnvInt.
  destruct (negb _).
  - destruct (Atoi _).
    + eexists _, []. unfold ret. now rewrite extend_nil.
    + erewrite bind_run by apply log_Printf_extend.
      eexists _, _. reflexivity.
  - eexists _, []. unfold ret. now rewrite extend_nil.
Qed.

Lemma loadConfig_run env w :
  exists ttl lines,
    loadConfig env w
    = (if String.eqb (getEnv env "SLACK_BOT_TOKEN" "") ""
       then Exited 1 else Returned (configOf env ttl),
       extend w [] lines).
Proof.
  unfold loadConfig.
  destruct (getEnvInt_extend env "TIMEBOMB_TTL" 86400 w) as (ttl & lines & Hint).
  erewrite bind_run by exact Hint.
  cbn [SlackBotToken]. fold (configOf env ttl).
  destruct (String.eqb _ "").
  - unfold log_Fatal. erewrite bind_run by apply log_Printf_extend.
    normalize. exists ttl. eexists. reflexivity.
  - exists ttl. eexists. reflexivity.
Qed.

Lemma getEnv_unset env key defaultValue :
  env !! key = None -> getEnv env key defaultValue = defaultValue.
Proof. unfold getEnv, Getenv. now intros ->. Qed.

Lemma getEnv_set env key defaultValue value :
  env !! key = Some value -> value <> "" -> getEnv env key defaultValue = value.
Proof.
  unfold getEnv, Getenv. intros -> Hne. cbn.
  now apply String.eqb_neq in Hne as ->.
Qed.

(** C7. When the Slack bot token is not set, [loadConfig] ends the process
    with status 1, and [main] ends there: it has made no request at all, so
    no Redis client, connection or subscription.  The token is the only
    setting whose absence is fatal: when it is set to a non-empty value,
    [loadConfig] returns a configuration whatever else is missing from the
    environment. *)
Theorem missing_token_fatal_before_bus {P} (out : Outside P) env bus w :
  (env !! "SLACK_BOT_TOKEN" = None ->
   fst (loadConfig env w) = Exited 1
   /\ fst (main out env bus w) = Exited 1
   /\ since w (snd (main out env bus w)) = [])
  /\ (forall token,
        env !! "SLACK_BOT_TOKEN" = Some token -> token <> "" ->
        exists config,
          fst (loadConfig env w) = Returned config
          /\ SlackBotToken config = token).
Proof.
  destruct (loadConfig_run env w) as (ttl & lines & Hload).
  split.
  - intros Hunset.
    rewrite (getEnv_unset _ _ _ Hunset) in Hload. cbn in Hload.
    unfold main. erewrite bind_run by exact Hload.
    rewrite Hload. unfold ret. cbn [fst snd].
    rewrite since_extend. repeat split.
  - intros token Hset Hne.
    rewrite (getEnv_set _ _ _ _ Hset Hne) in Hload.
    apply String.eqb_neq in Hne. rewrite Hne in Hload.
    rewrite Hload. exists (configOf env ttl). split; [reflexivity|].
    cbn. apply String.eqb_neq in Hne. now apply getEnv_set.
Qed.

Lemma missing_token_fatal_before_bus_witness :
  (fst (main (sampleOutside None None) ∅ [Received (inr "cat")] initialWorld)
   = Exited 1
   /\ since initialWorld
        (snd (main (sampleOutside None None) ∅ [Received (inr "cat")] initialWorld))
      = [])
  /\ exists config,
       fst (loadConfig sampleEnviron initialWorld) = Returned config
       /\ SlackBotToken config = "xoxb-token".
Proof.
  split.
  - destruct (missing_token_fatal_before_bus (sampleOutside None None) ∅
                [Received (inr "cat")] initialWorld) as [Hfatal _].
    destruct Hfatal as (_ & Hmain & Htrace); [reflexivity|].
    split; [exact Hmain | exact Htrace].
  - destruct (missing_token_fatal_before_bus (sampleOutside None None)
                sampleEnviron [] initialWorld) as [_ Hok].
    apply (Hok "xoxb-token"); [reflexivity | discriminate].
Defined.

(** ** The Redis database index *)

Lemma LoopTrace_clientDBs {P} (out : Outside P) config bus evs :
  LoopTrace out config bus evs -> clientDBs evs = [].
Proof.
  induction 1 as [| | |payload rest w result handling lines evs Hout Htr IH];
    try reflexivity; try assumption.
  change (clientDBs (handling ++ evs) = []).
  unfold clientDBs in *. rewrite omap_app, IH, app_nil_r.
  inversion Hout; reflexivity.
Qed.

Lemma processReactions_trace {P} (out : Outside P) config bus w :
  exists evs closing lines,
    snd (processReactions out config bus w)
    = extend w (RedisSubscribe "slack-relay-reaction-added" :: evs ++ closing) lines
    /\ LoopTrace out config bus evs
    /\ (closing = [] \/ closing = [RedisPubSubClose]).
Proof.
  unfold processReactions.
  erewrite bind_run by apply request_extend.
  erewrite bind_run by apply logInfo_extend.
  erewrite bind_run by apply surjective_pairing.
  match goal with
  | |- context [receiveLoop out config bus ?w1] =>
      destruct (receiveLoop_trace out config bus w1) as (evs & lines & Hw & Htr)
  end.
  rewrite Hw.
  destruct (fst (receiveLoop _ _ _ _)).
  - erewrite bind_run by apply request_extend.
    normalize. exists evs, [RedisPubSubClose]. eexists.
    split; [reflexivity | split; [exact Htr | now right]].
  - unfold ret at 1. unfold bind at 1. normalize.
    exists evs, []. eexists.
    split; [now rewrite app_nil_r | split; [exact Htr | now left]].
Qed.

(** What [main] asks of Redis and Slack: nothing when the configuration
    does not load; otherwise a client on the configured address with the
    configured database, and after it no other client. *)
Lemma main_trace {P} (out : Outside P) env bus w :
  (since w (snd (main out env bus w)) = []
   /\ exists status, fst (loadConfig env w) = Exited status)
  \/ exists config rest,
       fst (loadConfig env w) = Returned config
       /\ since w (snd (main out env bus w))
          = RedisNewClient (RedisAddr config) (RedisPassword config) (RedisDB config)
            :: rest
       /\ clientDBs rest = [].
Proof.
  destruct (loadConfig_run env w) as (ttl & lines & Hload).
  unfold main. erewrite bind_run by exact Hload. rewrite Hload. cbn [fst].
  destruct (String.eqb _ "").
  { left. unfold ret. cbn [snd]. rewrite since_extend. split; [reflexivity|].
    now exists 1%Z. }
  right. exists (configOf env ttl).
  set (config := configOf env ttl).
  unfold bind at 1. cbn [setLogLevel].
  set (w1 := mkWorld _ _ _).
  assert (Hsince : forall evs ls, since w (extend w1 evs ls) = evs).
  { intros evs ls. unfold since, now, w1. unfold extend. cbn [trace].
    rewrite (app_nil_r (trace w)). apply drop_app_length. }
  erewrite bind_run by apply request_extend.
  erewrite bind_run by apply Ping_extend.
  normalize.
  destruct (redis_Ping out _) as [err|].
  - unfold log_Fatal. erewrite bind_run by apply log_Printf_extend.
    unfold ret. normalize. cbn [snd]. rewrite Hsince.
    eexists. repeat split.
  - erewrite bind_run by apply logInfo_extend.
    erewrite bind_run by apply request_extend.
    erewrite bind_run by apply request_extend.
    erewrite bind_run by apply logInfo_extend.
    normalize.
    erewrite bind_run by apply surjective_pairing.
    match goal with
    | |- context [receiveLoop out config bus ?w2] =>
        destruct (receiveLoop_trace out config bus w2)
          as (evs & ls & Hw & Htr)
    end.
    rewrite Hw.
    erewrite bind_run by apply logInfo_extend.
    erewrite bind_run by apply request_extend.
    normalize.
    apply (LoopTrace_clientDBs out config) in Htr.
    destruct (fst (receiveLoop _ _ _ _)).
    + erewrite bind_run by apply request_extend.
      unfold ret. normalize. cbn [snd]. rewrite Hsince.
      eexists. split; [reflexivity|]. split; [reflexivity|].
      unfold clientDBs in *. cbn.
      rewrite !omap_app, Htr. reflexivity.
    + unfold ret at 1. unfold bind at 1.
      unfold ret. cbn [snd]. rewrite Hsince.
      eexists. split; [reflexivity|]. split; [reflexivity|].
      unfold clientDBs in *. cbn.
      rewrite !omap_app, Htr. reflexivity.
Qed.

(** C8, as the code has it.  The Redis database index is not read from
    the environment: [loadConfig] sets it to 0 whatever the environment
    holds, and the only Redis client [main] creates is on database 0. *)
Theorem redis_db_always_default {P} (out : Outside P) env bus w :
  (forall config, fst (loadConfig env w) = Returned config -> RedisDB config = 0%Z)
  /\ (clientDBs (since w (snd (main out env bus w))) = []
      \/ clientDBs (since w (snd (main out env bus w))) = [0%Z]).
Proof.
  split.
  - intros config Hcfg.
    destruct (loadConfig_run env w) as (ttl & lines & Hload).
    rewrite Hload in Hcfg. cbn [fst] in Hcfg.
    destruct (String.eqb _ ""); [discriminate|].
    injection Hcfg as <-. reflexivity.
  - destruct (main_trace out env bus w)
      as [[-> _]|(config & rest & Hcfg & -> & Hrest)]; [now left|].
    right. change (RedisDB config :: clientDBs rest = [0%Z]). rewrite Hrest.
    destruct (loadConfig_run env w) as (ttl & lines & Hload).
    rewrite Hload in Hcfg. cbn [fst] in Hcfg.
    destruct (String.eqb _ ""); [discriminate|].
    injection Hcfg as <-. reflexivity.
Qed.

Lemma redis_db_always_default_witness :
  RedisDB defaultConfig = 0%Z
  /\ clientDBs
       (since initialWorld
          (snd (main (sampleOutside None None)
                  (<["REDIS_DB" := "5"]> sampleEnviron) [] initialWorld)))
     = [0%Z].
Proof.
  destruct (redis_db_always_default (sampleOutside None None)
              (<["REDIS_DB" := "5"]> sampleEnviron) [] initialWorld)
    as [_ Hmain].
  destruct (redis_db_always_default (sampleOutside None None)
              sampleEnviron [] initialWorld) as [Hcfg _].
  split.
  - apply Hcfg. reflexivity.
  - destruct Hmain as [Hnone|Hone]; [discriminate Hnone | exact Hone].
Defined.

(** C8 as stated fails: no environment makes [loadConfig] return a
    database index other than 0, and an environment that sets [REDIS_DB]
    (the name such a key would have) to 5 still gets a client on
    database 0. *)
Lemma redis_db_override_counterexample :
  (~ exists (env : Environ) (w : World) (config : Config),
        fst (loadConfig env w) = Returned config /\ RedisDB config <> 0%Z)
  /\ since initialWorld
       (snd (main (sampleOutside None None)
               (<["REDIS_DB" := "5"]> sampleEnviron) [] initialWorld))
     = [ RedisNewClient "localhost:6379" "" 0;
         RedisPing None;
         SlackNew "xoxb-token";
         RedisSubscribe "slack-relay-reaction-added";
         RedisClose ].
Proof.
  split; [|vm_compute; reflexivity].
  intros (env & w & config & Hcfg & Hdb). apply Hdb.
  destruct (loadConfig_run env w) as (ttl & lines & Hload).
  rewrite Hload in Hcfg. cbn [fst] in Hcfg.
  destruct (String.eqb _ ""); [discriminate|].
  injection Hcfg as <-. reflexivity.
Qed.

(** ** Empty values *)

Lemma Getenv_empty_unset (env : Environ) key :
  env !! key = Some "" ->
  forall k, Getenv env k = Getenv (delete key env) k.
Proof.
  intros Hempty k. unfold Getenv.
  destruct (decide (k = key)) as [->|Hne].
  - now rewrite lookup_delete_eq, Hempty.
  - now rewrite lookup_delete_ne by congruence.
Qed.

Lemma loadConfig_ext (env env' : Environ) :
  (forall k, Getenv env k = Getenv env' k) ->
  loadConfig env = loadConfig env'.
Proof.
  intros Hsame. unfold loadConfig, getEnvInt, getEnv.
  now rewrite !Hsame.
Qed.

(** C10. A key set to the empty string is treated as if it were unset:
    [getEnv] returns the default for it, the same as in the environment
    without the key, [loadConfig] as a whole behaves the same with and
    without the key, and a token set to the empty string ends the process
    with status 1. *)
Theorem empty_value_treated_as_unset (env : Environ) key defaultValue w :
  env !! key = Some "" ->
  getEnv env key defaultValue = defaultValue
  /\ getEnv env key defaultValue = getEnv (delete key env) key defaultValue
  /\ loadConfig env w = loadConfig (delete key env) w
  /\ (key = "SLACK_BOT_TOKEN" -> fst (loadConfig env w) = Exited 1).
Proof.
  intros Hempty.
  assert (Hdefault : getEnv env key defaultValue = defaultValue).
  { unfold getEnv, Getenv. now rewrite Hempty. }
  repeat split.
  - exact Hdefault.
  - rewrite Hdefault. symmetry. apply getEnv_unset. apply lookup_delete_eq.
  - now rewrite (loadConfig_ext env (delete key env) (Getenv_empty_unset env key Hempty)).
  - intros ->.
    destruct (loadConfig_run env w) as (ttl & lines & Hload).
    rewrite Hload. cbn [fst].
    unfold getEnv, Getenv. now rewrite Hempty.
Qed.

Lemma empty_value_treated_as_unset_witness :
  getEnv (<["SLACK_BOT_TOKEN" := ""]> sampleEnviron) "SLACK_BOT_TOKEN" "" = ""
  /\ fst (loadConfig (<["SLACK_BOT_TOKEN" := ""]> sampleEnviron) initialWorld)
     = Exited 1
  /\ getEnv (<["WORK_DIR" := ""]> sampleEnviron) "WORK_DIR" "/tmp/vibemerge"
     = "/tmp/vibemerge".
Proof.
  destruct (empty_value_treated_as_unset
              (<["SLACK_BOT_TOKEN" := ""]> sampleEnviron) "SLACK_BOT_TOKEN" ""
              initialWorld) as (Hdef & _ & _ & Hfatal); [reflexivity|].
  destruct (empty_value_treated_as_unset
              (<["WORK_DIR" := ""]> sampleEnviron) "WORK_DIR" "/tmp/vibemerge"
              initialWorld) as (Hdir & _); [reflexivity|].
  split; [exact Hdef | split; [apply Hfatal; reflexivity | exact Hdir]].
Defined.

(** * Further properties of [main.go] *)

(** ** Log levels and the four log functions *)

(** X1. [parseLogLevel] is case-sensitive and total: DEBUG, WARNING or
    WARN, and ERROR give their level, and every other string, the empty
    one and lower-case spellings included, gives INFO. *)
Theorem parseLogLevel_cases level :
  (parseLogLevel level = LogLevelDebug <-> level = "DEBUG")
  /\ (parseLogLevel level = LogLevelWarning <-> level = "WARNING" \/ level = "WARN")
  /\ (parseLogLevel level = LogLevelError <-> level = "ERROR")
  /\ (parseLogLevel level = LogLevelInfo
      <-> level <> "DEBUG" /\ level <> "WARNING" /\ level <> "WARN"
          /\ level <> "ERROR").
Proof.
  unfold parseLogLevel.
  destruct (String.eqb_spec level "DEBUG") as [->|Hd].
  { cbn. repeat split; crush. }
  destruct (String.eqb_spec level "INFO") as [->|Hi].
  { cbn. repeat split; crush. }
  destruct (String.eqb_spec level "WARNING") as [->|Hw].
  { cbn. repeat split; crush. }
  destruct (String.eqb_spec level "WARN") as [->|Hn].
  { cbn. repeat split; crush. }
  destruct (String.eqb_spec level "ERROR") as [->|He].
  { cbn. repeat split; crush. }
  cbn. repeat split; crush.
Qed.

(** X2. The log functions filter on the global level and touch nothing
    else: [logDebug] writes only at DEBUG, [logInfo] at DEBUG and INFO,
    [logWarning] at every level but ERROR, and [logError] is never
    filtered; none of them makes a request or changes the level. *)
Theorem log_functions_filter_by_level msg w :
  loggedSince w (snd (logDebug msg w))
  = match currentLogLevel w with
    | LogLevelDebug => ["[DEBUG] " ++ msg]
    | _ => []
    end
  /\ loggedSince w (snd (logInfo msg w))
     = match currentLogLevel w with
       | LogLevelDebug | LogLevelInfo => ["[INFO] " ++ msg]
       | _ => []
       end
  /\ loggedSince w (snd (logWarning msg w))
     = match currentLogLevel w with
       | LogLevelError => []
       | _ => ["[WARNING] " ++ msg]
       end
  /\ loggedSince w (snd (logError msg w)) = ["[ERROR] " ++ msg]
  /\ Forall (fun w' => trace w' = trace w /\ currentLogLevel w' = currentLogLevel w)
       [ snd (logDebug msg w); snd (logInfo msg w);
         snd (logWarning msg w); snd (logError msg w) ].
Proof.
  rewrite logDebug_extend, logInfo_extend, logWarning_extend, logError_extend.
  cbn [snd]. rewrite !loggedSince_extend.
  unfold emit, enabled.
  repeat split; try (destruct (currentLogLevel w); reflexivity).
  repeat constructor; cbn; apply app_nil_r.
Qed.

(** ** Integer settings *)

(** X3. An integer setting whose value is not empty and does not parse is
    not fatal: [getEnvInt] returns the default, makes no request, and
    writes its warning with [log.Printf], so the line appears whatever the
    log level. *)
Theorem getEnvInt_invalid_falls_back (env : Environ) key defaultValue w :
  Getenv env key <> "" ->
  Atoi (Getenv env key) = None ->
  fst (getEnvInt env key defaultValue w) = defaultValue
  /\ since w (snd (getEnvInt env key defaultValue w)) = []
  /\ loggedSince w (snd (getEnvInt env key defaultValue w))
     = [ "[WARNING] invalid integer value for " ++ key ++ ": " ++ Getenv env key
         ++ ", using default: " ++ itoa defaultValue ].
Proof.
  intros Hne Hbad. unfold getEnvInt.
  apply String.eqb_neq in Hne. rewrite Hne, Hbad. cbn [negb].
  erewrite bind_run by apply log_Printf_extend.
  unfold ret. cbn [fst snd].
  rewrite since_extend, loggedSince_extend. repeat split.
Qed.

Lemma getEnvInt_invalid_falls_back_witness :
  fst (getEnvInt (<["TIMEBOMB_TTL" := "1 day"]> sampleEnviron) "TIMEBOMB_TTL" 86400
         (mkWorld LogLevelError [] [])) = 86400%Z
  /\ loggedSince (mkWorld LogLevelError [] [])
       (snd (getEnvInt (<["TIMEBOMB_TTL" := "1 day"]> sampleEnviron) "TIMEBOMB_TTL"
               86400 (mkWorld LogLevelError [] [])))
     = [ "[WARNING] invalid integer value for TIMEBOMB_TTL: 1 day, using default: 86400" ].
Proof.
  destruct (getEnvInt_invalid_falls_back
              (<["TIMEBOMB_TTL" := "1 day"]> sampleEnviron) "TIMEBOMB_TTL" 86400
              (mkWorld LogLevelError [] [])) as (Hv & _ & Hl).
  - discriminate.
  - reflexivity.
  - split; [exact Hv | exact Hl].
Defined.

(** Decimal text read back: the digits [itoa] writes are the digits
    [Atoi] reads. *)
Lemma parse_digits_string_of_uint d :
  forall acc, parse_digits acc (NilEmpty.string_of_uint d) = Some (decimalValue acc d).
Proof.
  induction d; intros acc; cbn [NilEmpty.string_of_uint decimalValue];
    [reflexivity | ..]; cbn [parse_digits]; apply IHd.
Qed.

Lemma decimalValue_of_uint_acc d :
  forall acc, decimalValue (Zpos acc) d = Zpos (Pos.of_uint_acc d acc).
Proof.
  induction d; intros acc; cbn [decimalValue Pos.of_uint_acc];
    [reflexivity | ..]; rewrite <- IHd; f_equal; lia.
Qed.

Lemma decimalValue_of_uint d : decimalValue 0 d = Z.of_N (Pos.of_uint d).
Proof.
  induction d; cbn [decimalValue Pos.of_uint]; [reflexivity | exact IHd | ..];
    cbn [Z.of_N]; rewrite <- decimalValue_of_uint_acc; reflexivity.
Qed.

Lemma decimalValue_to_uint p : decimalValue 0 (Pos.to_uint p) = Zpos p.
Proof. now rewrite decimalValue_of_uint, DecimalPos.Unsigned.of_to. Qed.

Lemma Atoi_digits p neg :
  Atoi (if neg : bool then String "-" (NilEmpty.string_of_uint (Pos.to_uint p))
        else NilEmpty.string_of_uint (Pos.to_uint p))
  = let n := if neg then Zneg p else Zpos p in
    if ((int_min <=? n) && (n <=? int_max))%Z then Some n else None.
Proof.
  pose proof (parse_digits_string_of_uint (Pos.to_uint p) 0) as Hparse.
  rewrite decimalValue_to_uint in Hparse.
  pose proof (DecimalPos.Unsigned.to_uint_nonnil p) as Hnil.
  destruct (Pos.to_uint p) eqn:Hd; [contradiction | ..];
    destruct neg; cbn [NilEmpty.string_of_uint] in *;
    unfold Atoi, parse_unsigned; rewrite Hparse; reflexivity.
Qed.

Lemma Atoi_itoa n :
  (int_min <= n <= int_max)%Z -> Atoi (itoa n) = Some n.
Proof.
  intros Hrange. unfold itoa.
  destruct n as [|p|p].
  - reflexivity.
  - cbn [Z.to_int NilZero.string_of_int]. unfold NilZero.string_of_uint.
    pose proof (DecimalPos.Unsigned.to_uint_nonnil p) as Hnil.
    destruct (Pos.to_uint p) eqn:Hd; [contradiction | ..]; rewrite <- Hd;
      rewrite (Atoi_digits p false); cbn zeta;
      (destruct (Z.leb_spec int_min (Zpos p)); [|lia]);
      (destruct (Z.leb_spec (Zpos p) int_max); [|lia]); reflexivity.
  - cbn [Z.to_int NilZero.string_of_int]. unfold NilZero.string_of_uint.
    pose proof (DecimalPos.Unsigned.to_uint_nonnil p) as Hnil.
    destruct (Pos.to_uint p) eqn:Hd; [contradiction | ..]; rewrite <- Hd;
      rewrite (Atoi_digits p true); cbn zeta;
      (destruct (Z.leb_spec int_min (Zneg p)); [|lia]);
      (destruct (Z.leb_spec (Zneg p) int_max); [|lia]); reflexivity.
Qed.

Lemma getEnvInt_decimal (env : Environ) key defaultValue n w :
  (int_min <= n <= int_max)%Z ->
  env !! key = Some (itoa n) ->
  getEnvInt env key defaultValue w = (n, w).
Proof.
  intros Hrange Hset. unfold getEnvInt, Getenv. rewrite Hset.
  change (default "" (Some (itoa n))) with (itoa n).
  pose proof (Atoi_itoa n Hrange) as Hread. rewrite Hread.
  destruct (String.eqb_spec (itoa n) "") as [Hempty|_]; [|reflexivity].
  rewrite Hempty in Hread. discriminate.
Qed.

(** X4. A 64-bit TTL written in decimal in [TIMEBOMB_TTL] is the TTL of
    the configuration, negative values and zero included, and loading
    then logs nothing. *)
Theorem ttl_read_back (env : Environ) n token w :
  (int_min <= n <= int_max)%Z ->
  env !! "TIMEBOMB_TTL" = Some (itoa n) ->
  env !! "SLACK_BOT_TOKEN" = Some token -> token <> "" ->
  exists config,
    loadConfig env w = (Returned config, w)
    /\ TimeBombTTL config = n
    /\ SlackBotToken config = token.
Proof.
  intros Hrange Httl Htoken Hne.
  unfold loadConfig.
  erewrite bind_run by (apply getEnvInt_decimal; eassumption).
  cbn [SlackBotToken]. rewrite (getEnv_set _ _ _ _ Htoken Hne).
  apply String.eqb_neq in Hne. rewrite Hne.
  eexists. split; [reflexivity|]. split; reflexivity.
Qed.

Lemma ttl_read_back_witness :
  exists config,
    loadConfig (<["TIMEBOMB_TTL" := "-3600"]> sampleEnviron) initialWorld
    = (Returned config, initialWorld)
    /\ TimeBombTTL config = (-3600)%Z
    /\ SlackBotToken config = "xoxb-token".
Proof.
  apply (ttl_read_back (<["TIMEBOMB_TTL" := "-3600"]> sampleEnviron) (-3600)
           "xoxb-token" initialWorld).
  - unfold int_min, int_max. lia.
  - reflexivity.
  - reflexivity.
  - discriminate.
Defined.

(** X5. [loadConfig] reads ten environment variables and nothing else:
    two environments that agree on them give the same configuration, the
    same exit and the same log lines. *)
Theorem loadConfig_reads_only_its_keys (env env' : Environ) :
  (forall key, In key configKeys -> env !! key = env' !! key) ->
  loadConfig env = loadConfig env'.
Proof.
  intros Hsame. unfold loadConfig, getEnvInt, getEnv, Getenv.
  repeat match goal with
    | |- context [env !! ?key] =>
        rewrite (Hsame key) by (cbn; tauto)
    end.
  reflexivity.
Qed.

Lemma loadConfig_reads_only_its_keys_witness :
  loadConfig (<["REDIS_DB" := "5"]> (<["HOME" := "/root"]> sampleEnviron))
  = loadConfig sampleEnviron.
Proof.
  apply loadConfig_reads_only_its_keys.
  intros key Hkey. cbn in Hkey.
  repeat (destruct Hkey as [<-|Hkey]; [reflexivity|]).
  destruct Hkey.
Defined.

(** ** The receive loop: errors and cancellation *)

Lemma receiveLoop_returned {P} (out : Outside P) config bus :
  forall w, fst (receiveLoop out config bus w) = cancelled bus.
Proof.
  induction bus as [|[|[err|payload]] rest IH]; intros w; try reflexivity.
  - rewrite receiveLoop_error. apply IH.
  - destruct (receiveLoop_message out config payload rest w)
      as (result & evs & lines & _ & ->). apply IH.
Qed.

Lemma LoopTrace_pubsubCloses {P} (out : Outside P) config bus evs :
  LoopTrace out config bus evs -> pubsubCloses evs = [].
Proof.
  induction 1 as [| | |payload rest w result handling lines evs Hout Htr IH];
    try reflexivity; try assumption.
  change (pubsubCloses (handling ++ evs) = []).
  unfold pubsubCloses in *. rewrite omap_app, IH, app_nil_r.
  inversion Hout; reflexivity.
Qed.

Lemma processReactions_run {P} (out : Outside P) config bus w :
  exists evs lines,
    processReactions out config bus w
    = (cancelled bus,
       extend w
         (RedisSubscribe "slack-relay-reaction-added"
          :: evs ++ (if cancelled bus then [RedisPubSubClose] else []))
         lines)
    /\ LoopTrace out config bus evs.
Proof.
  unfold processReactions.
  erewrite bind_run by apply request_extend.
  erewrite bind_run by apply logInfo_extend.
  erewrite bind_run by apply surjective_pairing.
  rewrite receiveLoop_returned.
  match goal with
  | |- context [receiveLoop out config bus ?w1] =>
      destruct (receiveLoop_trace out config bus w1) as (evs & lines & Hw & Htr)
  end.
  rewrite Hw. exists evs.
  destruct (cancelled bus).
  - erewrite bind_run by apply request_extend.
    normalize. eexists. split; [reflexivity | exact Htr].
  - unfold ret at 1. unfold bind at 1. normalize.
    eexists. split; [unfold ret; reflexivity | exact Htr].
Qed.

Lemma receiveLoop_after_cancel {P} (out : Outside P) config before after :
  forall w,
    receiveLoop out config (before ++ CtxDone :: after) w
    = receiveLoop out config (before ++ [CtxDone]) w.
Proof.
  induction before as [|[|[err|payload]] before IH]; intros w; try reflexivity.
  - cbn [app]. rewrite !receiveLoop_error. apply IH.
  - cbn [app].
    destruct (receiveLoop_message out config payload (before ++ CtxDone :: after) w)
      as (result & evs & lines & Hout & ->).
    destruct (receiveLoop_message out config payload (before ++ [CtxDone]) w)
      as (result' & evs' & lines' & Hout' & ->).
    assert (result = result' /\ evs = evs' /\ lines = lines') as (<- & <- & <-).
    { inversion Hout; subst; inversion Hout'; subst; same_facts;
        repeat split; congruence. }
    apply IH.
Qed.

(** X8. When [ReceiveMessage] returns an error the loop writes one
    [[ERROR]] line (never filtered), makes no other request for that turn,
    and goes on with the next delivery: there is no retry limit, back-off
    or exit. *)
Theorem receive_error_skipped {P} (out : Outside P) config err rest w :
  exists w',
    receiveLoop out config (Received (inl err) :: rest) w
    = receiveLoop out config rest w'
    /\ since w w' = [RedisReceiveMessage (inl err)]
    /\ loggedSince w w' = ["[ERROR] Error receiving message: " ++ err]
    /\ currentLogLevel w' = currentLogLevel w.
Proof.
  eexists. split; [apply receiveLoop_error|].
  rewrite since_extend, loggedSince_extend.
  repeat split. unfold emit, enabled. now destruct (currentLogLevel w).
Qed.

Lemma LoopTrace_subscriptions {P} (out : Outside P) config bus evs :
  LoopTrace out config bus evs -> subscriptions evs = [].
Proof.
  induction 1 as [| | |payload rest w result handling lines evs Hout Htr IH];
    try reflexivity; try assumption.
  change (subscriptions (handling ++ evs) = []).
  unfold subscriptions in *. rewrite omap_app, IH, app_nil_r.
  inversion Hout; reflexivity.
Qed.

(** X9. [processReactions] subscribes exactly once, to
    [slack-relay-reaction-added], before anything else.  The context is
    tested only at the top of a turn of the loop: the function returns
    exactly when some turn finds it cancelled, it closes the subscription
    only then, as its last request, and nothing delivered after that turn
    is received or handled. *)
Theorem cancellation_ends_subscription {P} (out : Outside P) config bus w :
  fst (processReactions out config bus w) = cancelled bus
  /\ subscriptions (since w (snd (processReactions out config bus w)))
     = ["slack-relay-reaction-added"]
  /\ (exists evs,
        since w (snd (processReactions out config bus w))
        = (RedisSubscribe "slack-relay-reaction-added"
           :: evs ++ (if cancelled bus then [RedisPubSubClose] else []))%list
        /\ subscriptions evs = []
        /\ pubsubCloses evs = []
        /\ received evs = consumed bus)
  /\ (forall before after,
        bus = (before ++ CtxDone :: after)%list ->
        processReactions out config bus w
        = processReactions out config (before ++ [CtxDone]) w).
Proof.
  destruct (processReactions_run out config bus w) as (evs & lines & Hrun & Htr).
  rewrite Hrun. cbn [fst snd]. rewrite since_extend.
  pose proof (LoopTrace_subscriptions out config bus evs Htr) as Hsub.
  split; [reflexivity|]. split; [|split].
  - change (subscriptions (RedisSubscribe "slack-relay-reaction-added" :: ?t))
      with ("slack-relay-reaction-added" :: subscriptions t).
    unfold subscriptions in *. rewrite omap_app, Hsub.
    destruct (cancelled bus); reflexivity.
  - exists evs. split; [reflexivity|]. split; [exact Hsub|]. split.
    + eapply LoopTrace_pubsubCloses; eassumption.
    + eapply LoopTrace_order; eassumption.
  - intros before after ->. rewrite <- Hrun.
    unfold processReactions, bind, ret, request, logInfo.
    destruct (enabled LogLevelInfo _); cbn [log_Printf];
      rewrite receiveLoop_after_cancel; reflexivity.
Qed.

(** X16. Whatever [handleReactionMessage] returns, the loop goes on with
    the next delivery; an error it returns is written as one [[ERROR]]
    line after the handler's own lines, and a nil result adds no line. *)
Theorem handler_error_logged_loop_continues {P} (out : Outside P)
    config payload rest w :
  let w1 := snd (request (RedisReceiveMessage (inr payload)) w) in
  let result := fst (handleReactionMessage out payload config w1) in
  exists w',
    receiveLoop out config (Received (inr payload) :: rest) w
    = receiveLoop out config rest w'
    /\ since w w'
       = RedisReceiveMessage (inr payload)
         :: since w1 (snd (handleReactionMessage out payload config w1))
    /\ loggedSince w w'
       = app (loggedSince w1 (snd (handleReactionMessage out payload config w1)))
             (match result with
              | Some err => ["[ERROR] Error handling reaction message: " ++ err]
              | None => []
              end).
Proof.
  intros w1 result. subst w1 result. rewrite request_extend. cbn [snd].
  set (w1 := extend w [RedisReceiveMessage (inr payload)] []).
  destruct (receiveLoop_message out config payload rest w)
    as (result & evs & lines & Hout & Hloop).
  fold w1 in Hout.
  destruct (handleReactionMessage_outcome out config payload w1)
    as (evs' & lines' & Hout' & Hw).
  assert (fst (handleReactionMessage out payload config w1) = result
          /\ evs' = evs /\ lines' = lines) as (Hres & -> & ->).
  { inversion Hout; subst; inversion Hout'; subst; same_facts;
      repeat split; congruence. }
  rewrite Hw, Hres, since_extend, loggedSince_extend.
  eexists. split; [exact Hloop|].
  rewrite since_extend, loggedSince_extend.
  split; [reflexivity|].
  destruct result; [|reflexivity].
  cbn [lineHandlerError]. unfold emit, enabled.
  now destruct (currentLogLevel w).
Qed.

(** ** Start-up *)

(** [main] once the token is there: the log level is set, the client is
    created and pinged, and the rest depends on the ping. *)
Lemma main_run {P} (out : Outside P) env bus w token :
  env !! "SLACK_BOT_TOKEN" = Some token -> token <> "" ->
  exists ttl lines,
    let config := configOf env ttl in
    let w1 := mkWorld (parseLogLevel (ConfigLogLevel config)) (trace w)
                      (logged w ++ lines) in
    let client :=
      RedisNewClient (RedisAddr config) (RedisPassword config) 0 in
    match redis_Ping out (now w + 1) with
    | Some err =>
        main out env bus w
        = (Exited 1,
           extend w1 [client; RedisPing (Some err)]
             ["Failed to connect to Redis: " ++ err])
    | None =>
        exists evs ls,
          main out env bus w
          = (Returned tt,
             extend w1
               (client :: RedisPing None :: SlackNew token
                :: RedisSubscribe "slack-relay-reaction-added"
                :: evs ++ RedisClose
                :: (if cancelled bus then [RedisPubSubClose] else []))
               ls)
          /\ LoopTrace out config bus evs
    end.
Proof.
  intros Htoken Hne.
  destruct (loadConfig_run env w) as (ttl & lines & Hload).
  rewrite (getEnv_set _ _ _ _ Htoken Hne) in Hload.
  pose proof Hne as Hneb. apply String.eqb_neq in Hneb. rewrite Hneb in Hload.
  exists ttl, lines. intros config w1 client.
  assert (Htok : SlackBotToken config = token).
  { cbn. now apply getEnv_set. }
  assert (Hstart : forall A (k : M A),
             (setLogLevel (parseLogLevel (ConfigLogLevel config)) ;; k)
               (extend w [] lines) = k w1).
  { intros A k. unfold bind, setLogLevel, w1, extend. cbn [trace logged].
    now rewrite app_nil_r. }
  assert (Hnow : now w1 = now w) by reflexivity.
  destruct (redis_Ping out (now w + 1)) as [err|] eqn:Hping.
  - unfold main. erewrite bind_run by exact Hload.
    cbv beta iota. fold config. rewrite Hstart.
    erewrite bind_run by apply request_extend.
    erewrite bind_run by apply Ping_extend.
    normalize. rewrite Hnow, Hping.
    unfold log_Fatal. erewrite bind_run by apply log_Printf_extend.
    unfold ret. normalize. reflexivity.
  - unfold main. erewrite bind_run by exact Hload.
    cbv beta iota. fold config. rewrite Hstart.
    erewrite bind_run by apply request_extend.
    erewrite bind_run by apply Ping_extend.
    normalize. rewrite Hnow, Hping.
    erewrite bind_run by apply logInfo_extend.
    erewrite bind_run by apply request_extend.
    erewrite bind_run by apply request_extend.
    erewrite bind_run by apply logInfo_extend.
    normalize. rewrite Htok.
    erewrite bind_run by apply surjective_pairing.
    rewrite receiveLoop_returned.
    match goal with
    | |- context [receiveLoop out config bus ?w2] =>
        destruct (receiveLoop_trace out config bus w2)
          as (evs & ls & Hw & Htr)
    end.
    rewrite Hw.
    erewrite bind_run by apply logInfo_extend.
    erewrite bind_run by apply request_extend.
    normalize.
    exists evs.
    destruct (cancelled bus).
    + erewrite bind_run by apply request_extend.
      unfold ret. normalize.
      eexists. split; [|exact Htr].
      f_equal; f_equal; cbn [app]; rewrite <- ?app_assoc; reflexivity.
    + unfold ret at 1. unfold bind at 1. unfold ret.
      eexists. split; [|exact Htr].
      f_equal; f_equal; cbn [app]; rewrite <- ?app_assoc; reflexivity.
Qed.

(** X6. With a token but a Redis that does not answer the ping, [main]
    ends the process with status 1 right after the ping: the line
    [Failed to connect to Redis: <err>] is written whatever the level, no
    Slack client is created and no subscription is made. *)
Theorem ping_failure_fatal {P} (out : Outside P) env bus w token err :
  env !! "SLACK_BOT_TOKEN" = Some token -> token <> "" ->
  redis_Ping out (now w + 1) = Some err ->
  fst (main out env bus w) = Exited 1
  /\ since w (snd (main out env bus w))
     = [ RedisNewClient (getEnv env "REDIS_ADDR" "localhost:6379")
           (getEnv env "REDIS_PASSWORD" "") 0;
         RedisPing (Some err) ]
  /\ exists before,
       loggedSince w (snd (main out env bus w))
       = app before ["Failed to connect to Redis: " ++ err].
Proof.
  intros Htoken Hne Hping.
  destruct (main_run out env bus w token Htoken Hne) as (ttl & lines & Hmain).
  cbv zeta in Hmain. rewrite Hping in Hmain. rewrite Hmain. cbn [fst snd].
  split; [reflexivity|]. split.
  - unfold since, now, extend. cbn [trace]. apply drop_app_length.
  - exists lines. unfold loggedSince, extend. cbn [logged].
    rewrite <- app_assoc. apply drop_app_length.
Qed.

Lemma ping_failure_fatal_witness :
  fst (main downOutside sampleEnviron [Received (inr "cat")] initialWorld)
  = Exited 1
  /\ since initialWorld
       (snd (main downOutside sampleEnviron [Received (inr "cat")] initialWorld))
     = [ RedisNewClient "localhost:6379" "" 0;
         RedisPing (Some "dial tcp: connection refused") ].
Proof.
  destruct (ping_failure_fatal downOutside sampleEnviron [Received (inr "cat")]
              initialWorld "xoxb-token" "dial tcp: connection refused")
    as (Hexit & Htrace & _);
    [reflexivity | discriminate | reflexivity |].
  split; [exact Hexit | exact Htrace].
Defined.

(** X7. With a token and a Redis that answers the ping, [main] sets the
    log level from [LOG_LEVEL], and its first three requests are, in this
    order, the creation of the Redis client on the configured address and
    password, the ping, and the creation of the Slack client with the
    token: all of it before the reaction goroutine is started. *)
Theorem start_up_sequence {P} (out : Outside P) env bus w token :
  env !! "SLACK_BOT_TOKEN" = Some token -> token <> "" ->
  redis_Ping out (now w + 1) = None ->
  currentLogLevel (snd (main out env bus w))
  = parseLogLevel (getEnv env "LOG_LEVEL" "INFO")
  /\ exists rest,
       since w (snd (main out env bus w))
       = RedisNewClient (getEnv env "REDIS_ADDR" "localhost:6379")
           (getEnv env "REDIS_PASSWORD" "") 0
         :: RedisPing None
         :: SlackNew token
         :: rest.
Proof.
  intros Htoken Hne Hping.
  destruct (main_run out env bus w token Htoken Hne) as (ttl & lines & Hmain).
  cbv zeta in Hmain. rewrite Hping in Hmain.
  destruct Hmain as (evs & ls & Hmain & Htr). rewrite Hmain. cbn [fst snd].
  split; [reflexivity|].
  eexists. unfold since, now, extend. cbn [trace]. rewrite drop_app_length.
  reflexivity.
Qed.

Lemma start_up_sequence_witness :
  currentLogLevel
    (snd (main (sampleOutside None None)
            (<["LOG_LEVEL" := "WARN"]> sampleEnviron) [Received (inr "cat")]
            initialWorld))
  = LogLevelWarning
  /\ exists rest,
       since initialWorld
         (snd (main (sampleOutside None None)
                 (<["LOG_LEVEL" := "WARN"]> sampleEnviron) [Received (inr "cat")]
                 initialWorld))
       = RedisNewClient "localhost:6379" "" 0
         :: RedisPing None :: SlackNew "xoxb-token" :: rest.
Proof.
  destruct (start_up_sequence (sampleOutside None None)
              (<["LOG_LEVEL" := "WARN"]> sampleEnviron) [Received (inr "cat")]
              initialWorld "xoxb-token")
    as (Hlevel & rest & Htrace);
    [reflexivity | discriminate | reflexivity |].
  split; [exact Hlevel|]. exists rest. exact Htrace.
Defined.

(** ** The handler: errors, requests and log lines *)

Lemma fetched_now {P} (out : Outside P) ev w1 w2 :
  now w1 = now w2 -> fetched out ev w1 = fetched out ev w2.
Proof. unfold fetched. now intros ->. Qed.

(** X10. [handleReactionMessage] returns an error in exactly three
    cases: the payload does not decode; the reaction matches and the
    metadata fetch fails; the reaction matches, the metadata is usable and
    the push to the queue fails.  Another reaction, a message without
    metadata and a failed cleanup publish all return nil. *)
Theorem handler_error_cases {P} (out : Outside P) config payload w :
  (exists err, fst (handleReactionMessage out payload config w) = Some err)
  <-> (exists err, json_Unmarshal_ReactionEvent out payload = inl err)
      \/ (exists ev,
            json_Unmarshal_ReactionEvent out payload = inr ev
            /\ Reaction (Event ev) = TargetEmoji config
            /\ ((exists err,
                   fst (getMessageMetadata out (ItemChannel (Item (Event ev)))
                          (ItemTs (Item (Event ev))) w) = inl err)
                \/ (exists md err,
                      fst (getMessageMetadata out (ItemChannel (Item (Event ev)))
                             (ItemTs (Item (Event ev))) w) = inr (Some md)
                      /\ redis_RPush out (now w + 1) (PoppitQueue config)
                           (encodePoppitPayload (commandPayload config md))
                         = Some err))).
Proof.
  destruct (handleReactionMessage_outcome out config payload w)
    as (evs & lines & Hout & _).
  assert (Hfetch : forall ev,
             fst (getMessageMetadata out (ItemChannel (Item (Event ev)))
                    (ItemTs (Item (Event ev))) w) = fetched out ev w).
  { intros ev. now rewrite getMessageMetadata_extend. }
  split.
  - intros [err Herr]. rewrite Herr in Hout.
    inversion Hout; subst.
    + left. eauto.
    + right. exists ev. rewrite Hfetch. eauto 10.
    + right. exists ev. rewrite Hfetch. unfold commandJSON in *. eauto 10.
  - intros [[err Hdec]|(ev & Hdec & Hre & Hcase)].
    + inversion Hout; subst; same_facts; try congruence;
        eexists; reflexivity.
    + rewrite Hfetch in Hcase. unfold commandJSON in *.
      destruct Hcase as [[err Hf]|(md & err & Hf & Hpush)];
        inversion Hout; subst; unfold commandJSON in *; same_facts;
        try congruence; eexists; reflexivity.
Qed.

(** X11. A matching reaction on a message that carries no usable
    metadata costs one Slack lookup and nothing else: the handler returns
    nil and makes no request to Redis. *)
Theorem no_metadata_nothing_queued {P} (out : Outside P) config payload w ev :
  json_Unmarshal_ReactionEvent out payload = inr ev ->
  Reaction (Event ev) = TargetEmoji config ->
  fst (getMessageMetadata out (ItemChannel (Item (Event ev)))
         (ItemTs (Item (Event ev))) w) = inr None ->
  fst (handleReactionMessage out payload config w) = None
  /\ since w (snd (handleReactionMessage out payload config w))
     = [ SlackGetConversationHistory
           {| ChannelID := ItemChannel (Item (Event ev));
              Latest := ItemTs (Item (Event ev));
              Limit := 1; Inclusive := true; IncludeAllMetadata := true |} ].
Proof.
  intros Hdec Hre Hfetch.
  rewrite getMessageMetadata_extend in Hfetch. cbn [fst] in Hfetch.
  fold (fetched out ev w) in Hfetch.
  destruct (handleReactionMessage_outcome out config payload w)
    as (evs & lines & Hout & Hw).
  rewrite Hw, since_extend.
  inversion Hout; subst; same_facts; try congruence.
  split; [congruence | reflexivity].
Qed.

Lemma no_metadata_nothing_queued_witness :
  fst (handleReactionMessage bareOutside "cat" defaultConfig initialWorld) = None
  /\ since initialWorld
       (snd (handleReactionMessage bareOutside "cat" defaultConfig initialWorld))
     = [ SlackGetConversationHistory
           {| ChannelID := "C123456"; Latest := "1766236581.981479";
              Limit := 1; Inclusive := true; IncludeAllMetadata := true |} ].
Proof.
  apply (no_metadata_nothing_queued bareOutside defaultConfig "cat" initialWorld
           (reactionOn "heart_eyes_cat" "C123456" "1766236581.981479"));
    reflexivity.
Defined.

(** X12. [getMessageMetadata] makes exactly one request: the history of
    the channel up to and including the timestamp, limited to one message,
    with all metadata; it logs nothing, and of the messages that come back
    only the first one is looked at. *)
Theorem metadata_fetch_request {P} (out : Outside P) channel timestamp w :
  since w (snd (getMessageMetadata out channel timestamp w))
  = [ SlackGetConversationHistory
        {| ChannelID := channel; Latest := timestamp; Limit := 1;
           Inclusive := true; IncludeAllMetadata := true |} ]
  /\ loggedSince w (snd (getMessageMetadata out channel timestamp w)) = []
  /\ forall first others others',
       slack_GetConversationHistory out (now w) (historyParams channel timestamp)
       = inr (first :: others) ->
       fst (getMessageMetadata out channel timestamp w)
       = metadataFromHistory out timestamp (inr (first :: others')).
Proof.
  rewrite getMessageMetadata_extend. cbn [fst snd].
  rewrite since_extend, loggedSince_extend.
  repeat split. intros first others others' ->. reflexivity.
Qed.

Lemma Outcome_same_now {P} (out : Outside P) config payload w1 w2
    r1 e1 l1 r2 e2 l2 :
  now w1 = now w2 ->
  Outcome out config payload w1 r1 e1 l1 ->
  Outcome out config payload w2 r2 e2 l2 ->
  r1 = r2 /\ e1 = e2.
Proof.
  intros Hnow H1 H2.
  inversion H1; subst; inversion H2; subst;
    repeat match goal with
      | H : fetched out _ w1 = _ |- _ =>
          rewrite (fetched_now out _ w1 w2 Hnow) in H
      | H : context [now w1] |- _ => rewrite Hnow in H
      end;
    same_facts; split; congruence.
Qed.

(** X13. What the handler returns and what it asks of Slack and Redis do
    not depend on the log level or on what was logged before: two worlds
    that have seen the same number of requests give the same result and the
    same requests. *)
Theorem handler_independent_of_logging {P} (out : Outside P)
    config payload w1 w2 :
  now w1 = now w2 ->
  fst (handleReactionMessage out payload config w1)
  = fst (handleReactionMessage out payload config w2)
  /\ since w1 (snd (handleReactionMessage out payload config w1))
     = since w2 (snd (handleReactionMessage out payload config w2)).
Proof.
  intros Hnow.
  destruct (handleReactionMessage_outcome out config payload w1)
    as (e1 & l1 & Hout1 & Hw1).
  destruct (handleReactionMessage_outcome out config payload w2)
    as (e2 & l2 & Hout2 & Hw2).
  rewrite Hw1, Hw2, !since_extend.
  eapply Outcome_same_now; eassumption.
Qed.

Lemma handler_independent_of_logging_witness :
  since (mkWorld LogLevelError [] ["earlier line"])
    (snd (handleReactionMessage (sampleOutside None None) "cat" defaultConfig
            (mkWorld LogLevelError [] ["earlier line"])))
  = since initialWorld
      (snd (handleReactionMessage (sampleOutside None None) "cat" defaultConfig
              initialWorld)).
Proof.
  apply (handler_independent_of_logging (sampleOutside None None) defaultConfig
           "cat" (mkWorld LogLevelError [] ["earlier line"]) initialWorld).
  reflexivity.
Defined.

(** X14. The handler itself never writes above the warning level: with
    the level at ERROR it logs nothing, whatever happens to the message,
    the failed-cleanup warning included. *)
Theorem handler_silent_at_error_level {P} (out : Outside P) config payload w :
  currentLogLevel w = LogLevelError ->
  loggedSince w (snd (handleReactionMessage out payload config w)) = [].
Proof.
  intros Hlevel.
  destruct (handleReactionMessage_outcome out config payload w)
    as (evs & lines & Hout & Hw).
  rewrite Hw, loggedSince_extend.
  inversion Hout; subst; unfold emit, enabled; rewrite ?Hlevel; reflexivity.
Qed.

Lemma handler_silent_at_error_level_witness :
  loggedSince (mkWorld LogLevelError [] [])
    (snd (handleReactionMessage (sampleOutside None (Some "EOF")) "cat"
            defaultConfig (mkWorld LogLevelError [] [])))
  = [].
Proof.
  apply (handler_silent_at_error_level (sampleOutside None (Some "EOF"))
           defaultConfig "cat" (mkWorld LogLevelError [] [])).
  reflexivity.
Defined.

(** X15. [publishTimeBombMessage] makes exactly one publish, on the
    configured cleanup channel; it returns an error exactly when that
    publish fails, the error naming the channel, and writes its
    confirmation line only on success. *)
Theorem publishTimeBombMessage_outcome {P} (out : Outside P)
    config channel timestamp w :
  let message :=
    encodeTimeBombMessage
      {| Channel := channel; Ts := timestamp; TTL := TimeBombTTL config |} in
  let reply := redis_Publish out (now w) (TimeBombChannel config) message in
  since w (snd (publishTimeBombMessage out config channel timestamp w))
  = [RedisPublish (TimeBombChannel config) message reply]
  /\ fst (publishTimeBombMessage out config channel timestamp w)
     = match reply with
       | Some err => Some ("failed to publish to " ++ TimeBombChannel config
                           ++ ": " ++ err)
       | None => None
       end
  /\ (reply <> None ->
      loggedSince w (snd (publishTimeBombMessage out config channel timestamp w))
      = []).
Proof.
  intros message reply.
  rewrite publishTimeBombMessage_extend. cbn [fst snd].
  rewrite since_extend, loggedSince_extend.
  fold (cleanupRequest config channel timestamp) in message.
  fold (cleanupJSON config channel timestamp) in message.
  subst message. fold reply.
  destruct reply; repeat split; congruence.
Qed.

(** X17. Handling one message makes at most three requests, in a fixed
    order: the Slack lookup, then the push, then the publish; a later one
    is never made without the earlier ones, the publish only after a push
    that succeeded. *)
Theorem handler_request_shape {P} (out : Outside P) config payload w :
  let t := since w (snd (handleReactionMessage out payload config w)) in
  t = []
  \/ (exists params, t = [SlackGetConversationHistory params])
  \/ (exists params key value err,
        t = [SlackGetConversationHistory params; RedisRPush key value (Some err)])
  \/ (exists params key value channel message reply,
        t = [SlackGetConversationHistory params;
             RedisRPush key value None;
             RedisPublish channel message reply]).
Proof.
  intros t. subst t.
  destruct (handleReactionMessage_outcome out config payload w)
    as (evs & lines & Hout & Hw).
  rewrite Hw, since_extend.
  inversion Hout; subst; eauto 12.
Qed.

(** X19. Slack is asked only about reactions that match: the handler
    makes its one history request, for the channel and timestamp of the
    event, exactly when the payload decodes and the reaction is the
    configured emoji; otherwise it makes none. *)
Theorem slack_lookup_only_on_match {P} (out : Outside P) config payload w :
  slackRequests (since w (snd (handleReactionMessage out payload config w)))
  = match json_Unmarshal_ReactionEvent out payload with
    | inl _ => []
    | inr ev =>
        if String.eqb (Reaction (Event ev)) (TargetEmoji config)
        then [ {| ChannelID := ItemChannel (Item (Event ev));
                  Latest := ItemTs (Item (Event ev));
                  Limit := 1; Inclusive := true; IncludeAllMetadata := true |} ]
        else []
    end.
Proof.
  destruct (handleReactionMessage_outcome out config payload w)
    as (evs & lines & Hout & Hw).
  rewrite Hw, since_extend.
  inversion Hout; subst;
    match goal with
    | H : json_Unmarshal_ReactionEvent out payload = _ |- _ => rewrite H
    end;
    try reflexivity;
    try (match goal with
         | H : Reaction _ = TargetEmoji _ |- _ => rewrite H, String.eqb_refl
         end; reflexivity).
  match goal with
  | H : Reaction _ <> TargetEmoji _ |- _ => apply String.eqb_neq in H; rewrite H
  end.
  reflexivity.
Qed.

Lemma Outcome_counts {P} (out : Outside P) config payload w result evs lines :
  Outcome out config payload w result evs lines ->
  length (cleanupAttempts evs) = length (queued evs)
  /\ length (queued evs) <= length (pushAttempts evs)
  /\ length (pushAttempts evs) <= length (slackRequests evs)
  /\ length (slackRequests evs) <= 1.
Proof. intros Hout. inversion Hout; subst; cbn; lia. Qed.

(** X18. Over a whole run of the receive loop the counts line up: as
    many cleanup publishes are attempted as entries were queued, no more
    entries are queued than pushes attempted, no more pushes attempted than
    Slack lookups made, and no more lookups than deliveries received. *)
Theorem loop_request_counts {P} (out : Outside P) config bus w :
  let t := since w (snd (receiveLoop out config bus w)) in
  length (cleanupAttempts t) = length (queued t)
  /\ length (queued t) <= length (pushAttempts t)
  /\ length (pushAttempts t) <= length (slackRequests t)
  /\ length (slackRequests t) <= length (received t)
  /\ length (received t) <= length bus.
Proof.
  intros t. subst t.
  destruct (receiveLoop_trace out config bus w) as (evs & lines & Hw & Htr).
  rewrite Hw, since_extend. clear Hw.
  induction Htr as [|rest|err rest evs Htr IH
                   |payload rest w' result handling hl evs Hout Htr IH].
  - cbn. lia.
  - cbn. lia.
  - change (cleanupAttempts (RedisReceiveMessage (inl err) :: evs))
      with (cleanupAttempts evs).
    change (queued (RedisReceiveMessage (inl err) :: evs)) with (queued evs).
    change (pushAttempts (RedisReceiveMessage (inl err) :: evs))
      with (pushAttempts evs).
    change (slackRequests (RedisReceiveMessage (inl err) :: evs))
      with (slackRequests evs).
    change (received (RedisReceiveMessage (inl err) :: evs))
      with (inl err :: received evs).
    cbn [length]. lia.
  - destruct (Outcome_counts out config payload w' result handling hl Hout)
      as (Hc & Hq & Hp & Hs).
    destruct (Outcome_requests out config payload w' result handling hl Hout)
      as (Hrecv & _).
    change (cleanupAttempts (RedisReceiveMessage (inr payload) :: handling ++ evs))
      with (cleanupAttempts (handling ++ evs)).
    change (queued (RedisReceiveMessage (inr payload) :: handling ++ evs))
      with (queued (handling ++ evs)).
    change (pushAttempts (RedisReceiveMessage (inr payload) :: handling ++ evs))
      with (pushAttempts (handling ++ evs)).
    change (slackRequests (RedisReceiveMessage (inr payload) :: handling ++ evs))
      with (slackRequests (handling ++ evs)).
    change (received (RedisReceiveMessage (inr payload) :: handling ++ evs))
      with (inr payload :: received (handling ++ evs)).
    unfold cleanupAttempts, queued, pushAttempts, slackRequests, received in *.
    rewrite !omap_app, !length_app. rewrite Hrecv. cbn [length app] in *. lia.
Qed.
